(** * aisearchapi-js: the client of the AI Search API, embedded in Rocq

    The development follows the sources: the types module ([types.js]
    and [types.d.ts]: the error class and the request, response and
    configuration shapes) and [client.ts] (the class
    [AISearchAPIClient]).  JavaScript values are a
    small inductive type, exceptions are an explicit completion type, and
    the network and the timers are an explicit world that every
    asynchronous method threads through. *)

From Stdlib Require Import ZArith String List Bool Lia DecimalString.
Import ListNotations.
Local Open Scope string_scope.
Local Open Scope Z_scope.
Set Warnings "-register-all".

(* ===================================================================== *)
(** * JavaScript values *)
(* ===================================================================== *)

Module Js.

(** The values that reach the client: what [JSON.parse] produces, plus
    [undefined] (a property that is not there).  A number is an integer
    here (status codes, milliseconds); fractions and NaN are outside this
    model.  An object is the list of its own properties in insertion
    order; keys are unique, as [JSON.parse] and object literals make
    them. *)
Inductive value : Type :=
| Undefined
| Null
| Bool (b : bool)
| Num (n : Z)
| Str (s : string)
| Arr (items : list value)
| Obj (props : list (string * value)).

(** ToBoolean. *)
Definition truthy (v : value) : bool :=
  match v with
  | Undefined | Null => false
  | Bool b => b
  | Num n => negb (n =? 0)
  | Str s => negb (s =? "")%string
  | Arr _ | Obj _ => true
  end.

(** The [typeof] operator. *)
Definition typeof (v : value) : string :=
  match v with
  | Undefined => "undefined"
  | Null => "object"
  | Bool _ => "boolean"
  | Num _ => "number"
  | Str _ => "string"
  | Arr _ | Obj _ => "object"
  end.

Definition isArray (v : value) : bool :=
  match v with Arr _ => true | _ => false end.

(** [v === s] for a string literal [s]. *)
Definition strict_eq_str (v : value) (s : string) : bool :=
  match v with Str s' => (s' =? s)%string | _ => false end.

(** [Array.prototype.includes] on an array of string literals. *)
Definition includes (lits : list string) (v : value) : bool :=
  existsb (strict_eq_str v) lits.

(** [a && b]: the left operand when it is falsy, the right one otherwise. *)
Definition and_ (a b : value) : value := if truthy a then b else a.

Fixpoint lookup (props : list (string * value)) (k : string) : option value :=
  match props with
  | [] => None
  | (k', v) :: rest => if (k' =? k)%string then Some v else lookup rest k
  end.

Definition has_own (props : list (string * value)) (k : string) : bool :=
  match lookup props k with Some _ => true | None => false end.

(** Number::toString for an integer (decimal digits; exact below 10^21). *)
Definition Number_toString (n : Z) : string :=
  NilZero.string_of_int (Z.to_int n).

(** ToString.  [None] is the TypeError of OrdinaryToPrimitive: an object
    whose own [toString] property shadows [Object.prototype.toString]
    with something that cannot be called (no parsed value can) has no
    primitive value.  An array is joined with commas, [null] and
    [undefined] elements giving the empty string. *)
Fixpoint ToString (v : value) : option string :=
  match v with
  | Undefined => Some "undefined"
  | Null => Some "null"
  | Bool true => Some "true"
  | Bool false => Some "false"
  | Num n => Some (Number_toString n)
  | Str s => Some s
  | Arr items =>
      (fix join (l : list value) : option string :=
         match l with
         | [] => Some ""
         | x :: rest =>
             let first :=
               match x with
               | Undefined | Null => Some ""
               | _ => ToString x
               end in
             match first, rest with
             | None, _ => None
             | Some s, [] => Some s
             | Some s, _ :: _ =>
                 match join rest with
                 | Some t => Some (s ++ "," ++ t)
                 | None => None
                 end
             end
         end) items
  | Obj props =>
      if has_own props "toString" then None else Some "[object Object]"
  end.

(** Error objects: [name] and [message] are all the client looks at. *)
Record ErrorObj : Type := mkError { name : string; message : string }.

(** [new Error(msg)]. *)
Definition Error (msg : string) : ErrorObj := mkError "Error" msg.

(** The engine's TypeErrors, in V8's wording (Node.js is the target). *)
Definition TypeError_read (v : value) (k : string) : ErrorObj :=
  mkError "TypeError"
    ("Cannot read properties of "
       ++ match v with Null => "null" | _ => "undefined" end
       ++ " (reading '" ++ k ++ "')").

(** The double quote character, for messages that contain it. *)
Definition dq : string := String (Ascii.ascii_of_nat 34) EmptyString.

Definition TypeError_primitive : ErrorObj :=
  mkError "TypeError" "Cannot convert object to primitive value".

End Js.

Import Js.

(* ===================================================================== *)
(** * The types module *)
(* ===================================================================== *)

Module Types.

(** [class AISearchAPIError extends Error]: the constructor stores
    [statusCode] and [response], sets [name] and keeps the description a
    second time under the server's spelling, [error.descripiton]. *)
Record AISearchAPIError : Type := mkAPIError {
  err_message : string;            (* Error.prototype.message, set by super *)
  statusCode : option Z;           (* statusCode?: number *)
  response : value;                (* response?: any; Undefined when absent *)
  error_descripiton : value        (* error: { descripiton } *)
}.

Definition err_name (_ : AISearchAPIError) : string := "AISearchAPIError".

(** What a [throw] can carry: an [Error] that is not an
    [AISearchAPIError], an [AISearchAPIError], or any other value. *)
Inductive Thrown : Type :=
| ThrowError (e : ErrorObj)
| ThrowAPI (e : AISearchAPIError)
| ThrowValue (v : value).

(** [error instanceof AISearchAPIError]. *)
Definition instanceof_AISearchAPIError (t : Thrown) : bool :=
  match t with ThrowAPI _ => true | _ => false end.

(** [error instanceof Error]. *)
Definition instanceof_Error (t : Thrown) : bool :=
  match t with ThrowError _ | ThrowAPI _ => true | ThrowValue _ => false end.

(** A completion: normal return or throw. *)
Inductive Completion (A : Type) : Type :=
| Return (a : A)
| Throw (t : Thrown).
Arguments Return {A} a.
Arguments Throw {A} t.

Definition bindC {A B} (c : Completion A) (k : A -> Completion B)
  : Completion B :=
  match c with
  | Return a => k a
  | Throw t => Throw t
  end.

(** Property read [v.k], for a property name that no built-in prototype
    defines (all the names the client reads are such): a TypeError on
    [null] and [undefined], the own property of an object, [undefined]
    otherwise. *)
Definition Get (v : value) (k : string) : Completion value :=
  match v with
  | Undefined | Null => Throw (ThrowError (TypeError_read v k))
  | Obj props =>
      match lookup props k with
      | Some x => Return x
      | None => Return Undefined
      end
  | _ => Return Undefined
  end.

(** [new AISearchAPIError(description, statusCode, response)].
    [super(description)] converts a description that is not [undefined]
    with ToString, which can throw. *)
Definition new_AISearchAPIError
    (description : value) (status : option Z) (resp : value)
  : Completion AISearchAPIError :=
  match description with
  | Undefined => Return (mkAPIError "" status resp description)
  | _ =>
      match ToString description with
      | Some m => Return (mkAPIError m status resp description)
      | None => Throw (ThrowError TypeError_primitive)
      end
  end.

End Types.

Import Types.

Declare Scope completion_scope.
Delimit Scope completion_scope with completion.
Notation "x <- c ;; k" := (bindC c (fun x => k))
  (at level 61, c at next level, right associativity) : completion_scope.

(* ===================================================================== *)
(** * client.ts: error normalisation *)
(* ===================================================================== *)

Module ErrorPath.

Local Open Scope completion_scope.

(** A fetch [Response]: the status line and what [json()] settles with
    (the parsed body, or the error it rejects with). *)
Record Response : Type := mkResponse {
  status : Z;
  json : ErrorObj + value
}.

(** [response.ok]. *)
Definition ok (r : Response) : bool :=
  (200 <=? status r) && (status r <=? 299).

(** The three [if] branches of [handleErrorResponse]: the value assigned
    to [errorMessage], if any. *)
Definition pick_message (errorData : value) : Completion (option value) :=
  err <- Get errorData "error" ;;
  d <- (if truthy err then Get err "descripiton" else Return err) ;;
  if truthy d then Return (Some d)
  else if truthy err && (typeof err =? "string")%string then Return (Some err)
  else
    m <- Get errorData "message" ;;
    if truthy m then Return (Some m) else Return None.

(** The [switch] on [response.status]. *)
Definition status_override (st : Z) : option string :=
  if st =? 401 then Some "Unauthorized: Please check your API key"
  else if st =? 429 then
    Some "Too many requests: Please slow down your request rate"
  else if st =? 433 then
    Some "Account is at or over message quota: Please check your usage limits"
  else if st =? 500 then Some "Server error: Please try again later"
  else if st =? 503 then
    Some "Service unavailable: The API is temporarily down"
  else None.

(** The state of the two locals after the [try]/[catch] block. *)
Definition parse_error_body (r : Response) : value * value :=
  let errorMessage := Str ("HTTP " ++ Number_toString (status r)) in
  match json r with
  | inl _ => (errorMessage, Undefined)
  | inr errorData =>
      match pick_message errorData with
      | Return (Some m) => (m, errorData)
      | Return None => (errorMessage, errorData)
      | Throw _ => (errorMessage, errorData)
      end
  end.

(** [errorMessage] when the [throw] statement is reached. *)
Definition final_message (r : Response) : value :=
  match status_override (status r) with
  | Some s => Str s
  | None => fst (parse_error_body r)
  end.

Definition handleErrorResponse (r : Response) : Completion unit :=
  let errorData := snd (parse_error_body r) in
  e <- new_AISearchAPIError (final_message r) (Some (status r)) errorData ;;
  Throw (ThrowAPI e).

End ErrorPath.

Import ErrorPath.

(* ===================================================================== *)
(** * client.ts: the world the client runs in *)
(* ===================================================================== *)

Module Net.

(** One call of [fetch]: the URL and the options the client passes.  The
    body text is kept as the JSON document it writes down; [signal] names
    the timer whose callback aborts this call's controller. *)
Record FetchCall : Type := mkCall {
  url : string;
  method : string;
  headers : list (string * string);
  body : option value;
  signal : nat
}.

(** How the environment settles a call: the response arrives, the timer
    fires first (the callback aborts the controller and [fetch] rejects
    with an AbortError), or the transport rejects on its own. *)
Inductive FetchOutcome : Type :=
| Responds (r : Response)
| TimerFires
| Rejects (t : Thrown).

Definition Transport : Type := FetchCall -> FetchOutcome.

(** The rejection of an aborted [fetch]. *)
Definition AbortError : ErrorObj :=
  mkError "AbortError" "This operation was aborted".

Record World : Type := mkWorld {
  calls : list FetchCall;      (* calls of fetch so far, oldest first *)
  timers : list nat;           (* timeouts armed and not yet fired or cleared *)
  next_timer : nat             (* the next timeout id *)
}.

(** An asynchronous computation: it changes the world and completes. *)
Definition M (A : Type) : Type := World -> Completion A * World.

Definition ret {A} (a : A) : M A := fun w => (Return a, w).

Definition throw {A} (t : Thrown) : M A := fun w => (Throw t, w).

Definition bind {A B} (m : M A) (k : A -> M B) : M B :=
  fun w =>
    match m w with
    | (Return a, w') => k a w'
    | (Throw t, w') => (Throw t, w')
    end.

(** [try { m } catch (error) { handler }]. *)
Definition try_catch {A} (m : M A) (handler : Thrown -> M A) : M A :=
  fun w =>
    match m w with
    | (Return a, w') => (Return a, w')
    | (Throw t, w') => handler t w'
    end.

(** A step that touches nothing outside the program. *)
Definition lift {A} (c : Completion A) : M A := fun w => (c, w).

Definition remove_timer (id : nat) (l : list nat) : list nat :=
  filter (fun x => negb (Nat.eqb x id)) l.

Definition setTimeout : M nat :=
  fun w =>
    (Return (next_timer w),
     mkWorld (calls w) (next_timer w :: timers w) (S (next_timer w))).

Definition clearTimeout (id : nat) : M unit :=
  fun w =>
    (Return tt, mkWorld (calls w) (remove_timer id (timers w)) (next_timer w)).

Definition fetch (tr : Transport) (c : FetchCall) : M Response :=
  fun w =>
    let sent := mkWorld (calls w ++ [c]) (timers w) (next_timer w) in
    match tr c with
    | Responds r => (Return r, sent)
    | TimerFires =>
        (Throw (ThrowError AbortError),
         mkWorld (calls sent) (remove_timer (signal c) (timers sent))
                 (next_timer sent))
    | Rejects t => (Throw t, sent)
    end.

End Net.

Import Net.

Declare Scope net_scope.
Delimit Scope net_scope with net.
Notation "x <- c ;; k" := (bind c (fun x => k))
  (at level 61, c at next level, right associativity) : net_scope.
Notation "c ;;; k" := (bind c (fun _ => k))
  (at level 61, right associativity) : net_scope.

(* ===================================================================== *)
(** * client.ts: the class AISearchAPIClient *)
(* ===================================================================== *)

Module Client.

Local Open Scope net_scope.

(** [ClientConfig], at its declared types; [None] is a field left out. *)
Record ClientConfig : Type := mkConfig {
  cfg_apiKey : option string;
  cfg_baseUrl : option string;
  cfg_timeout : option Z
}.

(** The three private fields. *)
Record AISearchAPIClient : Type := mkClient {
  apiKey : string;
  baseUrl : string;
  timeout : Z
}.

(** A [SearchRequest] as a caller can pass it: the validation tests the
    fields at run time, so each is any value, [Undefined] when left out. *)
Record SearchRequest : Type := mkRequest {
  prompt : value;
  context : value;
  response_type : value
}.

Definition opt_str (o : option string) : value :=
  match o with Some s => Str s | None => Undefined end.

(** [config.baseUrl || d] and [config.timeout || d] at their types. *)
Definition or_str (o : option string) (d : string) : string :=
  match o with
  | Some s => if truthy (Str s) then s else d
  | None => d
  end.

Definition or_num (o : option Z) (d : Z) : Z :=
  match o with
  | Some n => if truthy (Num n) then n else d
  | None => d
  end.

Definition str_of (o : option string) : string :=
  match o with Some s => s | None => "" end.

Definition constructor (config : ClientConfig)
  : Completion AISearchAPIClient :=
  if negb (truthy (opt_str (cfg_apiKey config)))
  then Throw (ThrowError (Error "API key is required"))
  else Return (mkClient (str_of (cfg_apiKey config))
                 (or_str (cfg_baseUrl config) "https://api.aisearchapi.io")
                 (or_num (cfg_timeout config) 30000)).

(** ** validateSearchRequest *)

Definition validate_message (message : value) : Completion unit :=
  (role <- Get message "role" ;;
   if negb (truthy role) || negb (strict_eq_str role "user")
   then Throw (ThrowError (Error ("Each context message must have role "
                                ++ dq ++ "user" ++ dq)))
   else
     content <- Get message "content" ;;
     if negb (truthy content) || negb (typeof content =? "string")%string
     then Throw (ThrowError
                   (Error "Each context message must have content as a string"))
     else Return tt)%completion.

(** The [for ... of] loop over the context. *)
Fixpoint validate_messages (l : list value) : Completion unit :=
  match l with
  | [] => Return tt
  | message :: rest =>
      (_ <- validate_message message ;; validate_messages rest)%completion
  end.

(** The elements a [for ... of] loop visits. *)
Definition items_of (v : value) : list value :=
  match v with Arr items => items | _ => [] end.

Definition validate_context (ctx : value) : Completion unit :=
  if truthy ctx then
    if negb (isArray ctx)
    then Throw (ThrowError (Error "Context must be an array of chat messages"))
    else validate_messages (items_of ctx)
  else Return tt.

Definition validateSearchRequest (request : SearchRequest) : Completion unit :=
  if negb (truthy (prompt request))
     || negb (typeof (prompt request) =? "string")%string
  then Throw (ThrowError (Error "Prompt is required and must be a string"))
  else
    (_ <- validate_context (context request) ;;
     if truthy (response_type request)
        && negb (includes ["text"; "markdown"] (response_type request))
     then Throw (ThrowError
                   (Error ("response_type must be either " ++ dq ++ "text" ++ dq
                             ++ " or " ++ dq ++ "markdown" ++ dq)))
     else Return tt)%completion.

(** ** Building and serialising the body *)

(** [...(x && { k: x })] inside an object literal: a falsy [x]
    ([undefined], [null], [false], [0], the empty string) has no own
    enumerable property and spreads nothing; otherwise the one-property
    object is spread. *)
Definition spread_if (k : string) (x : value) : list (string * value) :=
  match and_ x (Obj [(k, x)]) with
  | Obj props => props
  | _ => []
  end.

Definition search_body (request : SearchRequest) : value :=
  Obj ([("prompt", prompt request)]
         ++ spread_if "context" (context request)
         ++ spread_if "response_type" (response_type request)).

(** [JSON.stringify], as the document the text denotes: a property whose
    value is [undefined] is left out, an [undefined] array element is
    written [null]. *)
Fixpoint to_json (v : value) : value :=
  match v with
  | Arr items =>
      Arr (map (fun x => match x with Undefined => Null | _ => to_json x end)
               items)
  | Obj props =>
      Obj ((fix go (l : list (string * value)) : list (string * value) :=
              match l with
              | [] => []
              | (k, Undefined) :: rest => go rest
              | (k, x) :: rest => (k, to_json x) :: go rest
              end) props)
  | _ => v
  end.

Definition JSON_stringify (v : value) : option value :=
  match v with
  | Undefined => None
  | _ => Some (to_json v)
  end.

(** ** makeRequest *)

(** The options object handed to [makeRequest]. *)
Record Options : Type := mkOptions {
  opt_method : string;
  opt_headers : list (string * string);
  opt_body : option value
}.

(** [(error as any).name]. *)
Definition error_name (t : Thrown) : Completion value :=
  match t with
  | ThrowError e => Return (Str (name e))
  | ThrowAPI e => Return (Str (err_name e))
  | ThrowValue v => Get v "name"
  end.

(** [error.message] of an [Error]. *)
Definition error_message (t : Thrown) : string :=
  match t with
  | ThrowError e => message e
  | ThrowAPI e => err_message e
  | ThrowValue _ => ""
  end.

Definition timeout_message (c : AISearchAPIClient) : string :=
  "Request timeout after " ++ Number_toString (timeout c) ++ "ms".

(** [fetch(url, { ...options, signal: controller.signal })]. *)
Definition call_of (u : string) (options : Options) (timeoutId : nat)
  : FetchCall :=
  mkCall u (opt_method options) (opt_headers options) (opt_body options)
         timeoutId.

Definition makeRequest (c : AISearchAPIClient) (tr : Transport)
    (u : string) (options : Options) : M Response :=
  timeoutId <- setTimeout ;;
  try_catch
    (response <- fetch tr (call_of u options timeoutId) ;;
     clearTimeout timeoutId ;;;
     ret response)
    (fun error =>
       clearTimeout timeoutId ;;;
       n <- lift (error_name error) ;;
       if strict_eq_str n "AbortError"
       then
         e <- lift (new_AISearchAPIError (Str (timeout_message c))
                                         None Undefined) ;;
         throw (ThrowAPI e)
       else throw error).

(** ** search and balance *)

(** [await response.json()]. *)
Definition read_json (r : Response) : M value :=
  match json r with
  | inr v => ret v
  | inl e => throw (ThrowError e)
  end.

(** The [catch] block shared, up to its prefix, by [search] and
    [balance]. *)
Definition rewrap (prefix : string) (error : Thrown) : M value :=
  if instanceof_AISearchAPIError error then throw error
  else
    e <- lift (new_AISearchAPIError
                 (Str (prefix ++ (if instanceof_Error error
                                  then error_message error
                                  else "Unknown error")))
                 None Undefined) ;;
    throw (ThrowAPI e).

Definition search_url (c : AISearchAPIClient) : string :=
  baseUrl c ++ "/v1/search".

Definition search_options (c : AISearchAPIClient) (request : SearchRequest)
  : Options :=
  mkOptions "POST"
    [("Authorization", "Bearer " ++ apiKey c);
     ("Content-Type", "application/json")]
    (JSON_stringify (search_body request)).

Definition search (c : AISearchAPIClient) (tr : Transport)
    (request : SearchRequest) : M value :=
  lift (validateSearchRequest request) ;;;
  try_catch
    (response <- makeRequest c tr (search_url c) (search_options c request) ;;
     (if negb (ok response) then lift (handleErrorResponse response)
      else ret tt) ;;;
     read_json response)
    (rewrap "Search request failed: ").

Definition balance_url (c : AISearchAPIClient) : string :=
  baseUrl c ++ "/v1/balance".

Definition balance_options (c : AISearchAPIClient) : Options :=
  mkOptions "GET" [("Authorization", "Bearer " ++ apiKey c)] None.

Definition balance (c : AISearchAPIClient) (tr : Transport) : M value :=
  try_catch
    (response <- makeRequest c tr (balance_url c) (balance_options c) ;;
     (if negb (ok response) then lift (handleErrorResponse response)
      else ret tt) ;;;
     read_json response)
    (rewrap "Balance request failed: ").

End Client.

Import Client.

(* ===================================================================== *)
(** * The specification's wording, for comparison with the code *)
(* ===================================================================== *)

Module Spec.

(** The property [k] of a body that is an object. *)
Definition field (body : value) (k : string) : option value :=
  match body with
  | Obj props => lookup props k
  | _ => None
  end.

Definition as_string (o : option value) : option string :=
  match o with
  | Some (Str s) => Some s
  | _ => None
  end.

(** Shape 1: an object under [error] with a string under the server's
    spelling of the description field. *)
Definition nested_description (body : value) : option string :=
  match field body "error" with
  | Some e => as_string (field e "descripiton")
  | None => None
  end.

(** Shape 2: a string under [error]. *)
Definition error_string (body : value) : option string :=
  as_string (field body "error").

(** Shape 3: a string under [message]. *)
Definition message_string (body : value) : option string :=
  as_string (field body "message").

Definition first_of (l : list (option string)) (fallback : string) : string :=
  fold_right (fun o rest => match o with Some s => s | None => rest end)
             fallback l.

(** The fixed explanations of section 4.5. *)
Definition overrides : list (Z * string) :=
  [ (401, "Unauthorized: Please check your API key");
    (429, "Too many requests: Please slow down your request rate");
    (433, "Account is at or over message quota: Please check your usage limits");
    (500, "Server error: Please try again later");
    (503, "Service unavailable: The API is temporarily down") ].

Fixpoint override (table : list (Z * string)) (st : Z) : option string :=
  match table with
  | [] => None
  | (code, text) :: rest => if st =? code then Some text else override rest st
  end.

(** The message as section 4.5 words it: any string in one of the three
    shapes is used. *)
Definition stated_message (st : Z) (body : value) : string :=
  match override overrides st with
  | Some text => text
  | None =>
      first_of [nested_description body; error_string body;
                message_string body]
               ("HTTP " ++ Number_toString st)
  end.

(** The same precedence, an empty string counting as no string. *)
Definition non_empty (o : option string) : option string :=
  match o with
  | Some s => if (s =? "")%string then None else Some s
  | None => None
  end.

Definition amended_message (st : Z) (body : value) : string :=
  match override overrides st with
  | Some text => text
  | None =>
      first_of [non_empty (nested_description body);
                non_empty (error_string body);
                non_empty (message_string body)]
               ("HTTP " ++ Number_toString st)
  end.

(** A field that is absent, falsy or a string. *)
Definition string_or_falsy (o : option value) : bool :=
  match o with
  | None => true
  | Some (Str _) => true
  | Some v => negb (truthy v)
  end.

(** Bodies whose description and message fields hold nothing but
    strings (or nothing that counts). *)
Definition plain (body : value) : bool :=
  string_or_falsy (match field body "error" with
                   | Some e => field e "descripiton"
                   | None => None
                   end)
  && string_or_falsy (field body "message").

(** ** Section 4.2: the validation constraints *)

Definition present (v : value) : bool :=
  match v with Undefined => false | _ => true end.

Definition non_empty_string (v : value) : bool :=
  match v with Str s => negb (s =? "")%string | _ => false end.

(** A context element with [role] exactly [user] and a non-empty string
    as [content]. *)
Definition good_message (m : value) : bool :=
  match field m "role", field m "content" with
  | Some role, Some content =>
      strict_eq_str role "user" && non_empty_string content
  | _, _ => false
  end.

Definition good_context (ctx : value) : bool :=
  match ctx with
  | Arr items => forallb good_message items
  | _ => false
  end.

Definition good_response_type (rt : value) : bool :=
  strict_eq_str rt "text" || strict_eq_str rt "markdown".

(** A request that violates a constraint, a field counting as present as
    soon as it is there at all. *)
Definition violates_stated (req : SearchRequest) : bool :=
  negb (non_empty_string (prompt req))
  || (present (context req) && negb (good_context (context req)))
  || (present (response_type req)
      && negb (good_response_type (response_type req))).

(** The same, a field counting as present when it is truthy. *)
Definition violates (req : SearchRequest) : bool :=
  negb (non_empty_string (prompt req))
  || (truthy (context req) && negb (good_context (context req)))
  || (truthy (response_type req)
      && negb (good_response_type (response_type req))).

End Spec.

(* ===================================================================== *)
(** * One request, outcome by outcome *)
(* ===================================================================== *)

Module Run.

(** Timer ids in use are below the next one to be handed out. *)
Definition wf_world (w : World) : Prop :=
  Forall (fun id => (id < next_timer w)%nat) (timers w).

(** The world after [makeRequest] has sent [call]. *)
Definition after_request (w : World) (call : FetchCall) : World :=
  mkWorld (calls w ++ [call])
          (remove_timer (next_timer w) (timers w))
          (S (next_timer w)).

Definition timeout_error (c : AISearchAPIClient) : AISearchAPIError :=
  mkAPIError (timeout_message c) None Undefined (Str (timeout_message c)).

(** How [makeRequest] completes for each outcome of [fetch]. *)
Definition settle (c : AISearchAPIClient) (o : FetchOutcome)
  : Completion Response :=
  match o with
  | Responds r => Return r
  | TimerFires => Throw (ThrowAPI (timeout_error c))
  | Rejects t =>
      match error_name t with
      | Return n =>
          if strict_eq_str n "AbortError"
          then Throw (ThrowAPI (timeout_error c))
          else Throw t
      | Throw t' => Throw t'
      end
  end.

(** The [catch] block of [search] and [balance], without the world. *)
Definition rewrapC (prefix : string) (error : Thrown) : Completion value :=
  if instanceof_AISearchAPIError error then Throw error
  else
    (e <- new_AISearchAPIError
            (Str (prefix ++ (if instanceof_Error error
                             then error_message error
                             else "Unknown error")))
            None Undefined ;;
     Throw (ThrowAPI e))%completion.

(** The [try] block after [makeRequest] has returned [r]. *)
Definition respond (r : Response) : Completion value :=
  (_ <- (if negb (ok r) then handleErrorResponse r else Return tt) ;;
   match json r with
   | inr v => Return v
   | inl e => Throw (ThrowError e)
   end)%completion.

Definition finish (prefix : string) (res : Completion Response)
  : Completion value :=
  match bindC res respond with
  | Return v => Return v
  | Throw t => rewrapC prefix t
  end.

End Run.

(* ===================================================================== *)
(** * Concrete inputs *)
(* ===================================================================== *)

Module Examples.

Definition world0 : World := mkWorld [] [] 0.

Definition client50 : AISearchAPIClient :=
  mkClient "as-dev-key" "https://api.aisearchapi.io" 50.

Definition hello : SearchRequest := mkRequest (Str "hello") Undefined Undefined.

(** [{"error":{"descripiton":"teapot"}}], the server's spelling. *)
Definition teapot_wire : value :=
  Obj [("error", Obj [("descripiton", Str "teapot")])].

(** [{"error":{"description":"teapot"}}], the dictionary's spelling. *)
Definition teapot_dictionary : value :=
  Obj [("error", Obj [("description", Str "teapot")])].

(** [{"error":{"descripiton":""}}]. *)
Definition empty_description : value :=
  Obj [("error", Obj [("descripiton", Str "")])].

(** [{"error":{"descripiton":{"toString":1}}}]. *)
Definition unprintable : value :=
  Obj [("error", Obj [("descripiton", Obj [("toString", Num 1)])])].

(** [{ prompt: "hello", context: false }]. *)
Definition false_context : SearchRequest :=
  mkRequest (Str "hello") (Bool false) Undefined.

(** [{"answer":"x","sources":["a","b"],"response_type":"text","total_time":12}]. *)
Definition round_trip : value :=
  Obj [("answer", Str "x"); ("sources", Arr [Str "a"; Str "b"]);
       ("response_type", Str "text"); ("total_time", Num 12)].

Definition always (o : FetchOutcome) : Transport := fun _ => o.

Definition fetch_failed : ErrorObj := mkError "TypeError" "fetch failed".

End Examples.


(* ===================================================================== *)
(** * Auxiliary definitions for the further properties *)
(* ===================================================================== *)

Module Wire.

(** The properties [JSON.stringify] writes for an object: the inner loop
    of [to_json], by name. *)
Fixpoint json_props (l : list (string * value)) : list (string * value) :=
  match l with
  | [] => []
  | (k, Undefined) :: rest => json_props rest
  | (k, x) :: rest => (k, to_json x) :: json_props rest
  end.

(** The element [JSON.stringify] writes for an array element. *)
Definition json_item (x : value) : value :=
  match x with Undefined => Null | _ => to_json x end.

(** The value [errorData] holds when the error is thrown. *)
Definition parsed (r : Response) : value :=
  match json r with inr v => v | inl _ => Undefined end.

(** The configuration that spells out the three fields of a client. *)
Definition config_of (c : AISearchAPIClient) : ClientConfig :=
  mkConfig (Some (apiKey c)) (Some (baseUrl c)) (Some (timeout c)).

(** The calls [search] and [balance] make when the next timer is [id]. *)
Definition search_call (c : AISearchAPIClient) (req : SearchRequest)
    (id : nat) : FetchCall :=
  call_of (search_url c) (search_options c req) id.

Definition balance_call (c : AISearchAPIClient) (id : nat) : FetchCall :=
  call_of (balance_url c) (balance_options c) id.

(** The optional key of the body: there when the field is truthy. *)
Definition optional_key (k : string) (x wire : value)
  : list (string * value) :=
  if truthy x then [(k, wire)] else [].

End Wire.

Module MoreExamples.

(** [{ role: "user", content: "first" }] and a second message. *)
Definition first_message : value :=
  Obj [("role", Str "user"); ("content", Str "first")].

Definition second_message : value :=
  Obj [("role", Str "user"); ("content", Str "second")].

(** [{ role: "assistant", content: "" }]: wrong role and empty content. *)
Definition assistant_message : value :=
  Obj [("role", Str "assistant"); ("content", Str "")].

Definition with_context : SearchRequest :=
  mkRequest (Str "hello") (Arr [first_message; second_message]) (Str "text").

Definition syntax_error : ErrorObj :=
  mkError "SyntaxError" "Unexpected end of JSON input".

(** [{"available_credits": 42}]. *)
Definition credits : value := Obj [("available_credits", Num 42)].

End MoreExamples.

(* ===================================================================== *)
(** * Error normalisation *)
(* ===================================================================== *)

(** Case analysis on every test that is still in the way. *)
Ltac split_tests :=
  repeat (cbn in *;
          match goal with
          | H : false = true |- _ => discriminate H
          | H : true = false |- _ => discriminate H
          | |- context [if ?b then _ else _] => destruct b eqn:?
          | H : context [if ?b then _ else _] |- _ => destruct b eqn:?
          | |- context [match ?x with _ => _ end] => destruct x eqn:?
          | H : context [match ?x with _ => _ end] |- _ => destruct x eqn:?
          end);
  cbn in *; try reflexivity; try discriminate; try congruence.

Section ErrorNormalisation.

Lemma status_override_table (st : Z) :
  status_override st = Spec.override Spec.overrides st.
Proof. reflexivity. Qed.

Lemma new_error_of_string (s : string) (st : option Z) (resp : value) :
  new_AISearchAPIError (Str s) st resp = Return (mkAPIError s st resp (Str s)).
Proof. reflexivity. Qed.

(** On a plain body the three branches pick the first non-empty string. *)
Lemma parse_error_body_plain (r : Response) (body : value) :
  json r = inr body ->
  Spec.plain body = true ->
  parse_error_body r =
    (Str (Spec.first_of [Spec.non_empty (Spec.nested_description body);
                         Spec.non_empty (Spec.error_string body);
                         Spec.non_empty (Spec.message_string body)]
                        ("HTTP " ++ Number_toString (status r))),
     body).
Proof.
  intros Hj Hp. unfold parse_error_body. rewrite Hj.
  destruct body as [ | | b | n | s | items | props ]; try reflexivity.
  unfold Spec.plain, Spec.nested_description, Spec.error_string,
    Spec.message_string, Spec.field in *.
  unfold pick_message, Get; cbn [bindC].
  destruct (lookup props "message") as [[ | | mb | mn | ms | mitems | mprops ]|];
    destruct (lookup props "error") as [[ | | eb | en | es | eitems | eprops ]|];
    split_tests.
Qed.

(** The normaliser never returns: it throws the error built from the
    status and the parsed body, or the TypeError of the error constructor
    when the chosen message has no string form. *)
Lemma handleErrorResponse_cases (r : Response) :
  (exists e,
      handleErrorResponse r = Throw (ThrowAPI e)
      /\ ToString (final_message r) = Some (err_message e)
      /\ statusCode e = Some (status r)
      /\ response e = snd (parse_error_body r))
  \/ (handleErrorResponse r = Throw (ThrowError TypeError_primitive)
      /\ ToString (final_message r) = None).
Proof.
  unfold handleErrorResponse, new_AISearchAPIError.
  assert (Hdef : final_message r <> Undefined).
  { unfold final_message, parse_error_body.
    destruct (status_override (status r)); [discriminate|].
    destruct (json r) as [err|data]; cbn; [discriminate|].
    destruct (pick_message data) as [[m|]|t] eqn:Hp; cbn; try discriminate.
    intros ->. unfold pick_message in Hp.
    destruct (Get data "error") as [err|]; cbn in Hp; [|discriminate].
    destruct (truthy err) eqn:Herr; cbn in Hp.
    - destruct (Get err "descripiton") as [d|]; cbn in Hp; [|discriminate].
      destruct (truthy d) eqn:Hd; [injection Hp as ->; discriminate|].
      destruct (typeof err =? "string")%string;
        [injection Hp as ->; discriminate|].
      destruct (Get data "message") as [m|]; cbn in Hp; [|discriminate].
      destruct (truthy m) eqn:Hm; [injection Hp as ->|]; discriminate.
    - rewrite Herr in Hp. cbn in Hp.
      destruct (Get data "message") as [m|]; cbn in Hp; [|discriminate].
      destruct (truthy m) eqn:Hm; [injection Hp as ->|]; discriminate. }
  destruct (final_message r) eqn:Hm; try congruence;
    destruct (ToString _) eqn:Hs; cbn;
    solve [ left; eexists; repeat split; cbn; congruence
          | right; split; congruence ].
Qed.

End ErrorNormalisation.

(** C1 (as amended).  For every response whose body parses and, unless
    the status is one of 401, 429, 433, 500 and 503, holds nothing but
    strings in its description and message fields, the normaliser throws
    an AISearchAPIError whose message is the fixed text for those five
    statuses, and otherwise the first non-empty string among
    error.descripiton, error and message, else "HTTP" followed by the
    status. *)
Theorem handleErrorResponse_message (r : Response) (body : value) :
  json r = inr body ->
  (Spec.override Spec.overrides (status r) = None -> Spec.plain body = true) ->
  exists e,
    handleErrorResponse r = Throw (ThrowAPI e)
    /\ err_message e = Spec.amended_message (status r) body.
Proof.
  intros Hj Hp. unfold handleErrorResponse, final_message, Spec.amended_message.
  rewrite status_override_table.
  destruct (Spec.override Spec.overrides (status r)) as [text|].
  - rewrite new_error_of_string. cbn [bindC]. eexists; split; reflexivity.
  - rewrite (parse_error_body_plain r body Hj (Hp eq_refl)).
    cbn [fst snd]. rewrite new_error_of_string. cbn [bindC].
    eexists; split; reflexivity.
Qed.

Lemma handleErrorResponse_message_witness :
  exists e,
    handleErrorResponse (mkResponse 404 (inr Examples.teapot_wire))
      = Throw (ThrowAPI e)
    /\ err_message e = Spec.amended_message 404 Examples.teapot_wire.
Proof.
  apply (handleErrorResponse_message
           (mkResponse 404 (inr Examples.teapot_wire)) Examples.teapot_wire);
    [reflexivity | intros _; reflexivity].
Defined.

(** C1 as worded fails on an empty string: for status 418 and the body
    [{"error":{"descripiton":""}}] the wording selects the empty string,
    the code falls back to "HTTP 418". *)
Lemma handleErrorResponse_empty_description :
  ok (mkResponse 418 (inr Examples.empty_description)) = false
  /\ Spec.stated_message 418 Examples.empty_description = ""
  /\ handleErrorResponse (mkResponse 418 (inr Examples.empty_description))
     = Throw (ThrowAPI (mkAPIError "HTTP 418" (Some 418)
                                   Examples.empty_description
                                   (Str "HTTP 418"))).
Proof. repeat split. Qed.

(** C4, at the input where it breaks: the body
    [{"error":{"descripiton":{"toString":1}}}] with status 418 makes the
    error constructor throw a TypeError, so the normaliser signals no
    AISearchAPIError, and [search] reports an error with neither
    statusCode nor response. *)
Theorem handleErrorResponse_unprintable :
  handleErrorResponse (mkResponse 418 (inr Examples.unprintable))
    = Throw (ThrowError TypeError_primitive)
  /\ fst (search Examples.client50
            (Examples.always
               (Responds (mkResponse 418 (inr Examples.unprintable))))
            Examples.hello Examples.world0)
     = Throw (ThrowAPI
                (mkAPIError
                   "Search request failed: Cannot convert object to primitive value"
                   None Undefined
                   (Str "Search request failed: Cannot convert object to primitive value"))).
Proof. split; reflexivity. Qed.

(* ===================================================================== *)
(** * The request wrapper *)
(* ===================================================================== *)

Section Wrapper.

Variable c : AISearchAPIClient.
Variable tr : Transport.

Lemma remove_timer_idem (id : nat) (l : list nat) :
  remove_timer id (remove_timer id l) = remove_timer id l.
Proof.
  unfold remove_timer. induction l as [|x l IH]; cbn; [reflexivity|].
  destruct (Nat.eqb x id) eqn:E; cbn; [exact IH|].
  rewrite E. cbn. now rewrite IH.
Qed.

Lemma remove_timer_head (id : nat) (l : list nat) :
  remove_timer id (id :: l) = remove_timer id l.
Proof. unfold remove_timer. cbn. now rewrite Nat.eqb_refl. Qed.

Lemma remove_timer_fresh (id : nat) (l : list nat) :
  Forall (fun x => (x < id)%nat) l -> remove_timer id l = l.
Proof.
  unfold remove_timer. induction 1 as [|x l Hx _ IH]; cbn; [reflexivity|].
  destruct (Nat.eqb_spec x id); [lia|]. cbn. now rewrite IH.
Qed.

(** [makeRequest] sends exactly one call and leaves its timer disarmed,
    whatever the outcome. *)
Lemma makeRequest_run (u : string) (o : Options) (w : World) :
  makeRequest c tr u o w =
    (Run.settle c (tr (call_of u o (next_timer w))),
     Run.after_request w (call_of u o (next_timer w))).
Proof.
  unfold makeRequest, bind, try_catch, setTimeout, fetch, clearTimeout,
    lift, throw, ret, Run.settle, Run.after_request.
  cbn -[remove_timer].
  destruct (tr (call_of u o (next_timer w))) as [r| |t]; cbn -[remove_timer].
  - now rewrite remove_timer_head.
  - now rewrite remove_timer_head, remove_timer_idem.
  - rewrite remove_timer_head.
    destruct (error_name t) as [n|t']; cbn; [|reflexivity].
    destruct (strict_eq_str n "AbortError"); reflexivity.
Qed.

Lemma rewrap_run (prefix : string) (t : Thrown) (w : World) :
  rewrap prefix t w = (Run.rewrapC prefix t, w).
Proof.
  unfold rewrap, Run.rewrapC, bind, lift, throw.
  destruct (instanceof_AISearchAPIError t); [reflexivity|].
  now destruct (new_AISearchAPIError _ _ _).
Qed.

Lemma try_block_run (u : string) (o : Options) (prefix : string) (w : World) :
  try_catch
    (response <- makeRequest c tr u o ;;
     (if negb (ok response) then lift (handleErrorResponse response)
      else ret tt) ;;;
     read_json response)%net
    (rewrap prefix) w
  = (Run.finish prefix (Run.settle c (tr (call_of u o (next_timer w)))),
     Run.after_request w (call_of u o (next_timer w))).
Proof.
  unfold try_catch, bind at 1. rewrite makeRequest_run.
  unfold Run.finish, Run.respond.
  destruct (Run.settle c _) as [r|t]; cbn [bindC].
  - unfold bind, read_json, lift, ret, throw.
    destruct (negb (ok r)).
    + destruct (handleErrorResponse r) as [[]|t]; cbn [bindC].
      * destruct (json r); [apply rewrap_run|reflexivity].
      * apply rewrap_run.
    + cbn [bindC]. destruct (json r); [apply rewrap_run|reflexivity].
  - apply rewrap_run.
Qed.

(** [search] on a request that passes validation. *)
Lemma search_run (req : SearchRequest) (w : World) :
  validateSearchRequest req = Return tt ->
  search c tr req w =
    (Run.finish "Search request failed: "
       (Run.settle c
          (tr (call_of (search_url c) (search_options c req) (next_timer w)))),
     Run.after_request w
       (call_of (search_url c) (search_options c req) (next_timer w))).
Proof.
  intros Hv. unfold search, bind at 1, lift. rewrite Hv.
  apply try_block_run.
Qed.

(** [search] on a request that fails validation: nothing is sent. *)
Lemma search_rejected (req : SearchRequest) (w : World) (t : Thrown) :
  validateSearchRequest req = Throw t ->
  search c tr req w = (Throw t, w).
Proof.
  intros Hv. unfold search, bind at 1, lift. now rewrite Hv.
Qed.

Lemma balance_run (w : World) :
  balance c tr w =
    (Run.finish "Balance request failed: "
       (Run.settle c
          (tr (call_of (balance_url c) (balance_options c) (next_timer w)))),
     Run.after_request w
       (call_of (balance_url c) (balance_options c) (next_timer w))).
Proof. apply try_block_run. Qed.

End Wrapper.

(** The timeout a configuration asks for is readable in the message of
    the client built from it. *)
Lemma configured_timeout_in_message (config : ClientConfig)
    (c : AISearchAPIClient) (t : Z) :
  constructor config = Return c ->
  cfg_timeout config = Some t ->
  exists pre post,
    timeout_message c = pre ++ Number_toString t ++ post.
Proof.
  unfold constructor. intros Hc Ht.
  destruct (negb (truthy (opt_str (cfg_apiKey config)))); [discriminate|].
  injection Hc as <-. unfold timeout_message. cbn [timeout].
  rewrite Ht. unfold or_num. cbn [truthy].
  destruct (Z.eqb_spec t 0) as [->|Hne]; cbn [negb].
  - exists "Request timeout after 3", "000ms". reflexivity.
  - exists "Request timeout after ", "ms". reflexivity.
Qed.

(** C5.  In a world whose timer ids are fresh, [makeRequest] leaves the
    armed timers as it found them on every exit path; when the response
    arrives first it is returned; when the timer fires first the wrapper,
    and [search] and [balance] through it, fail with an AISearchAPIError
    whose message is "Request timeout after <timeout>ms" for the client's
    timeout and whose statusCode is absent; the message contains the
    timeout of any configuration the client was built from. *)
Theorem makeRequest_timeout (c : AISearchAPIClient) (tr : Transport)
    (w : World) :
  Run.wf_world w ->
  (forall u o,
      timers (snd (makeRequest c tr u o w)) = timers w
      /\ (forall r, tr (call_of u o (next_timer w)) = Responds r ->
                    fst (makeRequest c tr u o w) = Return r)
      /\ (tr (call_of u o (next_timer w)) = TimerFires ->
          fst (makeRequest c tr u o w) = Throw (ThrowAPI (Run.timeout_error c))))
  /\ (forall req,
         validateSearchRequest req = Return tt ->
         tr (call_of (search_url c) (search_options c req) (next_timer w))
           = TimerFires ->
         fst (search c tr req w) = Throw (ThrowAPI (Run.timeout_error c))
         /\ timers (snd (search c tr req w)) = timers w)
  /\ (tr (call_of (balance_url c) (balance_options c) (next_timer w))
        = TimerFires ->
      fst (balance c tr w) = Throw (ThrowAPI (Run.timeout_error c))
      /\ timers (snd (balance c tr w)) = timers w)
  /\ err_message (Run.timeout_error c)
       = "Request timeout after " ++ Number_toString (timeout c) ++ "ms"
  /\ statusCode (Run.timeout_error c) = None
  /\ (forall config t,
         constructor config = Return c ->
         cfg_timeout config = Some t ->
         exists pre post,
           err_message (Run.timeout_error c)
             = pre ++ Number_toString t ++ post).
Proof.
  intros Hwf.
  assert (Hfresh : remove_timer (next_timer w) (timers w) = timers w)
    by (apply remove_timer_fresh; exact Hwf).
  split; [|split; [|split; [|split; [|split]]]].
  - intros u o. rewrite makeRequest_run. cbn [fst snd]. repeat split.
    + exact Hfresh.
    + intros r Hr. now rewrite Hr.
    + intros Ht. now rewrite Ht.
  - intros req Hv Ht. rewrite (search_run c tr req w Hv), Ht.
    split; [reflexivity | exact Hfresh].
  - intros Ht. rewrite balance_run, Ht.
    split; [reflexivity | exact Hfresh].
  - reflexivity.
  - reflexivity.
  - intros config t Hc Ht. exact (configured_timeout_in_message config c t Hc Ht).
Qed.

Lemma makeRequest_timeout_witness :
  fst (search Examples.client50 (Examples.always TimerFires)
              Examples.hello Examples.world0)
    = Throw (ThrowAPI (Run.timeout_error Examples.client50))
  /\ err_message (Run.timeout_error Examples.client50)
     = "Request timeout after 50ms".
Proof.
  assert (Hwf : Run.wf_world Examples.world0) by constructor.
  destruct (makeRequest_timeout Examples.client50 (Examples.always TimerFires)
              Examples.world0 Hwf) as (_ & Hs & _ & Hm & _).
  split.
  - apply (Hs Examples.hello); reflexivity.
  - exact Hm.
Defined.

(** C6 as worded fails: with the body [{"error":{"description":"teapot"}}]
    spelled as in a dictionary, the nested field is not the one the code
    reads and the message is the fallback "HTTP 418". *)
Lemma search_teapot_dictionary_spelling :
  exists e,
    fst (search Examples.client50
           (Examples.always
              (Responds (mkResponse 418 (inr Examples.teapot_dictionary))))
           Examples.hello Examples.world0)
      = Throw (ThrowAPI e)
    /\ err_message e = "HTTP 418"
    /\ err_message e <> "teapot"
    /\ statusCode e = Some 418.
Proof.
  eexists. split; [reflexivity|]. cbn. repeat split. discriminate.
Qed.

(** C6 (as amended).  When the transport answers a valid search with
    status 418 and the body [{"error":{"descripiton":"teapot"}}], in the
    server's spelling, [search] throws an AISearchAPIError with message
    "teapot" and statusCode 418. *)
Theorem search_teapot (c : AISearchAPIClient) (tr : Transport)
    (req : SearchRequest) (w : World) :
  validateSearchRequest req = Return tt ->
  (forall call,
      tr call = Responds (mkResponse 418 (inr Examples.teapot_wire))) ->
  exists e,
    fst (search c tr req w) = Throw (ThrowAPI e)
    /\ err_message e = "teapot"
    /\ statusCode e = Some 418.
Proof.
  intros Hv Htr. rewrite (search_run c tr req w Hv), Htr.
  eexists. split; [reflexivity|]. split; reflexivity.
Qed.

Lemma search_teapot_witness :
  exists e,
    fst (search Examples.client50
           (Examples.always
              (Responds (mkResponse 418 (inr Examples.teapot_wire))))
           Examples.hello Examples.world0)
      = Throw (ThrowAPI e)
    /\ err_message e = "teapot"
    /\ statusCode e = Some 418.
Proof.
  apply search_teapot; [reflexivity | intros call; reflexivity].
Defined.

(** C7.  When the transport rejects with an Error that is not an
    AbortError, [search] and [balance] throw an AISearchAPIError without
    statusCode whose message is the operation's prefix followed by the
    message of the underlying failure. *)
Theorem transport_failure_wrapped (c : AISearchAPIClient) (tr : Transport)
    (req : SearchRequest) (w : World) (failure : ErrorObj) :
  validateSearchRequest req = Return tt ->
  (forall call, tr call = Rejects (ThrowError failure)) ->
  name failure <> "AbortError" ->
  (exists e,
      fst (search c tr req w) = Throw (ThrowAPI e)
      /\ err_message e = "Search request failed: " ++ message failure
      /\ statusCode e = None)
  /\ (exists e,
         fst (balance c tr w) = Throw (ThrowAPI e)
         /\ err_message e = "Balance request failed: " ++ message failure
         /\ statusCode e = None).
Proof.
  intros Hv Htr Hname.
  apply String.eqb_neq in Hname.
  rewrite (search_run c tr req w Hv), balance_run, !Htr.
  unfold Run.settle, error_name, strict_eq_str. rewrite Hname.
  split; eexists; (split; [reflexivity|]); split; reflexivity.
Qed.

Lemma transport_failure_wrapped_witness :
  exists e,
    fst (search Examples.client50
           (Examples.always (Rejects (ThrowError Examples.fetch_failed)))
           Examples.hello Examples.world0)
      = Throw (ThrowAPI e)
    /\ err_message e = "Search request failed: fetch failed"
    /\ statusCode e = None.
Proof.
  apply (transport_failure_wrapped Examples.client50
           (Examples.always (Rejects (ThrowError Examples.fetch_failed)))
           Examples.hello Examples.world0 Examples.fetch_failed).
  - reflexivity.
  - intros call. reflexivity.
  - discriminate.
Defined.

(** C9.  When the transport answers a valid search with a 2xx status and
    a body that parses, [search] returns that very body: nothing in it is
    reordered or recomputed. *)
Theorem search_returns_body (c : AISearchAPIClient) (tr : Transport)
    (req : SearchRequest) (w : World) (r : Response) (data : value) :
  validateSearchRequest req = Return tt ->
  tr (call_of (search_url c) (search_options c req) (next_timer w))
    = Responds r ->
  ok r = true ->
  json r = inr data ->
  fst (search c tr req w) = Return data.
Proof.
  intros Hv Htr Hok Hj. rewrite (search_run c tr req w Hv), Htr.
  cbn. unfold Run.finish, Run.respond. cbn. now rewrite Hok, Hj.
Qed.

Lemma search_returns_body_witness :
  fst (search Examples.client50
         (Examples.always
            (Responds (mkResponse 200 (inr Examples.round_trip))))
         Examples.hello Examples.world0)
    = Return (Obj [("answer", Str "x"); ("sources", Arr [Str "a"; Str "b"]);
                   ("response_type", Str "text"); ("total_time", Num 12)]).
Proof.
  apply (search_returns_body Examples.client50
           (Examples.always
              (Responds (mkResponse 200 (inr Examples.round_trip))))
           Examples.hello Examples.world0
           (mkResponse 200 (inr Examples.round_trip)) Examples.round_trip);
    reflexivity.
Defined.

(* ===================================================================== *)
(** * Validation *)
(* ===================================================================== *)

Section Validation.

Lemma validate_message_cases (m : value) :
  if Spec.good_message m
  then validate_message m = Return tt
  else exists e, validate_message m = Throw (ThrowError e).
Proof.
  unfold Spec.good_message, Spec.field, validate_message, Get,
    Spec.non_empty_string.
  destruct m as [ | | b | n | s | items | props ]; cbn;
    try (eexists; reflexivity).
  destruct (lookup props "role") as [role|];
    destruct (lookup props "content") as [content|]; cbn;
    try (eexists; reflexivity);
    try (destruct role as [ | | rb | rn | rs | ritems | rprops ]; cbn;
         repeat match goal with
                | |- context [if ?b then _ else _] => destruct b eqn:?; cbn
                end;
         eexists; reflexivity).
  destruct role as [ | | rb | rn | rs | ritems | rprops ]; cbn;
    try (eexists; reflexivity);
    try (destruct rb; eexists; reflexivity);
    try (destruct (rn =? 0); eexists; reflexivity).
  destruct (rs =? "user")%string eqn:Hrole; cbn.
  - destruct (rs =? "")%string eqn:Hempty; cbn.
    + apply String.eqb_eq in Hempty. subst rs. discriminate.
    + destruct content as [ | | cb | cn | cs | citems | cprops ];
        cbn; try (eexists; reflexivity);
        try (destruct cb; eexists; reflexivity);
        try (destruct (cn =? 0); eexists; reflexivity).
      destruct (cs =? "")%string; cbn; [eexists|]; reflexivity.
  - destruct (rs =? "")%string; cbn; eexists; reflexivity.
Qed.

Lemma validate_messages_cases (items : list value) :
  if forallb Spec.good_message items
  then validate_messages items = Return tt
  else exists e, validate_messages items = Throw (ThrowError e).
Proof.
  induction items as [|m items IH]; cbn; [reflexivity|].
  pose proof (validate_message_cases m) as Hm.
  destruct (Spec.good_message m); cbn.
  - rewrite Hm. cbn. exact IH.
  - destruct Hm as [e He]. rewrite He. cbn. now exists e.
Qed.

Lemma validate_context_cases (ctx : value) :
  if truthy ctx && negb (Spec.good_context ctx)
  then exists e, validate_context ctx = Throw (ThrowError e)
  else validate_context ctx = Return tt.
Proof.
  unfold validate_context, Spec.good_context.
  destruct ctx as [ | | b | n | s | items | props ]; cbn;
    try reflexivity; try (eexists; reflexivity).
  - destruct b; cbn; [eexists|]; reflexivity.
  - destruct (n =? 0); cbn; [|eexists]; reflexivity.
  - destruct (s =? "")%string; cbn; [|eexists]; reflexivity.
  - pose proof (validate_messages_cases items) as Hi.
    destruct (forallb Spec.good_message items); cbn; exact Hi.
Qed.

(** The validator rejects exactly the requests that [Spec.violates]
    describes, and always with a plain [Error] (or the TypeError of
    reading a property of a [null] or [undefined] element). *)
Lemma validateSearchRequest_cases (req : SearchRequest) :
  if Spec.violates req
  then exists e, validateSearchRequest req = Throw (ThrowError e)
  else validateSearchRequest req = Return tt.
Proof.
  unfold Spec.violates, validateSearchRequest, Spec.non_empty_string,
    Spec.good_response_type, includes.
  destruct req as [p ctx rt]; cbn [prompt context response_type].
  assert (Hp : negb (truthy p) || negb (typeof p =? "string")%string
               = negb match p with
                      | Str s => negb (s =? "")%string
                      | _ => false
                      end).
  { destruct p as [ | | b | n | s | items | props ]; cbn; try reflexivity.
    - now destruct b.
    - now destruct (n =? 0).
    - now destruct (s =? "")%string. }
  rewrite Hp.
  destruct (negb match p with Str s => negb (s =? "")%string | _ => false end);
    cbn [orb]; [eexists; reflexivity|].
  pose proof (validate_context_cases ctx) as Hc.
  destruct (truthy ctx && negb (Spec.good_context ctx)); cbn [orb].
  - destruct Hc as [e He]. rewrite He. cbn. now exists e.
  - rewrite Hc. cbn [bindC existsb]. rewrite orb_false_r.
    destruct (truthy rt && negb (strict_eq_str rt "text" || strict_eq_str rt "markdown"));
      [eexists|]; reflexivity.
Qed.

Lemma truthy_present (v : value) : truthy v = true -> Spec.present v = true.
Proof. now destruct v. Qed.

(** A request that meets the constraints as the specification words them
    passes the validator. *)
Lemma well_formed_accepted (req : SearchRequest) :
  Spec.violates_stated req = false ->
  validateSearchRequest req = Return tt.
Proof.
  intros Hs. pose proof (validateSearchRequest_cases req) as Hc.
  assert (Hv : Spec.violates req = false).
  { unfold Spec.violates_stated, Spec.violates in *.
    apply orb_false_iff in Hs as [Hs Hrt].
    apply orb_false_iff in Hs as [Hp Hctx].
    rewrite Hp. cbn [orb].
    destruct (truthy (context req)) eqn:Tc;
      [rewrite (truthy_present _ Tc) in Hctx; cbn [andb] in *; rewrite Hctx|];
      cbn [andb orb];
      (destruct (truthy (response_type req)) eqn:Tr;
       [rewrite (truthy_present _ Tr) in Hrt; cbn [andb] in *; exact Hrt
       |reflexivity]). }
  now rewrite Hv in Hc.
Qed.

End Validation.

(** C2 (as amended).  A request whose prompt is not a non-empty string,
    or whose context is truthy and not an array of messages with role
    "user" and a non-empty string content, or whose response_type is
    truthy and neither "text" nor "markdown", makes [search] throw an
    Error that is not an AISearchAPIError and leaves the world as it was:
    no call of the transport, no timer. *)
Theorem search_rejects_invalid (c : AISearchAPIClient) (tr : Transport)
    (req : SearchRequest) (w : World) :
  Spec.violates req = true ->
  exists e,
    search c tr req w = (Throw (ThrowError e), w)
    /\ instanceof_AISearchAPIError (ThrowError e) = false
    /\ calls (snd (search c tr req w)) = calls w.
Proof.
  intros Hv. pose proof (validateSearchRequest_cases req) as Hc.
  rewrite Hv in Hc. destruct Hc as [e He].
  exists e. rewrite (search_rejected c tr req w _ He). now repeat split.
Qed.

Lemma search_rejects_invalid_witness :
  exists e,
    search Examples.client50
      (Examples.always (Responds (mkResponse 200 (inr Examples.round_trip))))
      (mkRequest (Str "") Undefined Undefined) Examples.world0
    = (Throw (ThrowError e), Examples.world0).
Proof.
  destruct (search_rejects_invalid Examples.client50
              (Examples.always
                 (Responds (mkResponse 200 (inr Examples.round_trip))))
              (mkRequest (Str "") Undefined Undefined) Examples.world0
              eq_refl) as (e & He & _).
  exists e. exact He.
Defined.

(** C2 as worded fails: [{ prompt: "hello", context: false }] carries a
    context that is present and is not a sequence, yet [search] sends the
    request and returns the response. *)
Lemma search_false_context_is_sent :
  Spec.violates_stated Examples.false_context = true
  /\ fst (search Examples.client50
            (Examples.always
               (Responds (mkResponse 200 (inr Examples.round_trip))))
            Examples.false_context Examples.world0)
     = Return Examples.round_trip
  /\ length (calls (snd (search Examples.client50
                           (Examples.always
                              (Responds (mkResponse 200
                                           (inr Examples.round_trip))))
                           Examples.false_context Examples.world0)))
     = 1%nat.
Proof. repeat split. Qed.

(* ===================================================================== *)
(** * The outbound body *)
(* ===================================================================== *)

(** C8.  For a request that meets the constraints, [search] makes one
    call whose body is a JSON object that has the key [prompt], has the
    key [context] exactly when the caller supplied a context (an empty
    array included, which is written as it is), and has the key
    [response_type] exactly when the caller supplied one. *)
Theorem search_body_keys (c : AISearchAPIClient) (tr : Transport)
    (req : SearchRequest) (w : World) :
  Spec.violates_stated req = false ->
  exists call props,
    calls (snd (search c tr req w)) = (calls w ++ [call])%list
    /\ body call = Some (Obj props)
    /\ has_own props "prompt" = true
    /\ has_own props "context" = Spec.present (context req)
    /\ has_own props "response_type" = Spec.present (response_type req)
    /\ (forall items,
           context req = Arr items ->
           lookup props "context" = Some (to_json (Arr items)))
    /\ (context req = Arr [] -> lookup props "context" = Some (Arr [])).
Proof.
  intros Hs. rewrite (search_run c tr req w (well_formed_accepted req Hs)).
  cbn [snd Run.after_request calls].
  unfold call_of, search_options, JSON_stringify, search_body.
  unfold Spec.violates_stated in Hs.
  apply orb_false_iff in Hs as [Hs Hrt].
  apply orb_false_iff in Hs as [Hp Hctx].
  destruct req as [p ctx rt]; cbn [prompt context response_type] in *.
  destruct p as [ | | pb | pn | ps | pitems | pprops ]; try discriminate Hp.
  assert (Hc : ctx = Undefined \/ exists items, ctx = Arr items).
  { destruct ctx; cbn in Hctx; try discriminate Hctx; eauto. }
  assert (Hr : rt = Undefined \/ rt = Str "text" \/ rt = Str "markdown").
  { destruct rt as [ | | rb | rn | rs | ritems | rprops ];
      cbn in Hrt; try discriminate Hrt; auto.
    unfold Spec.good_response_type, strict_eq_str in Hrt.
    apply negb_false_iff, orb_true_iff in Hrt as [H|H];
      apply String.eqb_eq in H; subst; auto. }
  destruct Hc as [->|[items ->]];
    destruct Hr as [->|[->| ->]];
    eexists; eexists;
    (split; [reflexivity|]);
    (split; [reflexivity|]);
    repeat split; try reflexivity; try discriminate;
    try (intros items' [= ->]; reflexivity);
    try (intros [= ->]; reflexivity).
Qed.

Lemma search_body_keys_witness :
  exists call props,
    calls (snd (search Examples.client50 (Examples.always TimerFires)
                  (mkRequest (Str "hello") (Arr []) Undefined)
                  Examples.world0))
      = [call]
    /\ body call = Some (Obj props)
    /\ has_own props "context" = true
    /\ has_own props "response_type" = false.
Proof.
  destruct (search_body_keys Examples.client50 (Examples.always TimerFires)
              (mkRequest (Str "hello") (Arr []) Undefined) Examples.world0
              eq_refl)
    as (call & props & Hcalls & Hbody & _ & Hctx & Hrt & _).
  exists call, props. repeat split; assumption.
Defined.

(* ===================================================================== *)
(** * Construction *)
(* ===================================================================== *)

(** C3.  Without an API key, or with an empty one, the constructor throws
    the plain Error "API key is required"; with a non-empty key it
    returns a client that holds the key, the base URL
    "https://api.aisearchapi.io" when none was given and the timeout
    30000 when none was given.  The constructor is a pure function: it
    touches neither the transport nor the timers. *)
Theorem constructor_contract (config : ClientConfig) :
  (cfg_apiKey config = None \/ cfg_apiKey config = Some "" ->
   constructor config = Throw (ThrowError (Error "API key is required")))
  /\ (forall key,
         cfg_apiKey config = Some key -> key <> "" ->
         exists c,
           constructor config = Return c
           /\ apiKey c = key
           /\ (cfg_baseUrl config = None ->
               baseUrl c = "https://api.aisearchapi.io")
           /\ (cfg_timeout config = None -> timeout c = 30000)).
Proof.
  unfold constructor. split.
  - intros [-> | ->]; reflexivity.
  - intros key -> Hkey. apply String.eqb_neq in Hkey.
    cbn. rewrite Hkey. cbn.
    eexists. split; [reflexivity|]. cbn.
    split; [reflexivity|]. split; intros ->; reflexivity.
Qed.

Lemma constructor_contract_witness :
  constructor (mkConfig None None None)
    = Throw (ThrowError (Error "API key is required"))
  /\ exists c,
       constructor (mkConfig (Some "as-dev-key") None None) = Return c
       /\ baseUrl c = "https://api.aisearchapi.io"
       /\ timeout c = 30000.
Proof.
  split.
  - apply (proj1 (constructor_contract (mkConfig None None None))).
    left. reflexivity.
  - destruct (proj2 (constructor_contract
                       (mkConfig (Some "as-dev-key") None None))
                    "as-dev-key" eq_refl)
      as (c & Hc & _ & Hb & Ht); [discriminate|].
    exists c. split; [exact Hc|]. split; [apply Hb | apply Ht]; reflexivity.
Defined.

(** C10.  With a non-empty key the constructor accepts any base URL and
    timeout: a timeout of 0 is replaced by 30000 and an empty base URL by
    "https://api.aisearchapi.io", and no client ever holds the timeout 0
    or the empty base URL. *)
Theorem constructor_falsy_defaults (config : ClientConfig) (key : string) :
  cfg_apiKey config = Some key -> key <> "" ->
  exists c,
    constructor config = Return c
    /\ (cfg_timeout config = Some 0 -> timeout c = 30000)
    /\ (cfg_baseUrl config = Some "" ->
        baseUrl c = "https://api.aisearchapi.io")
    /\ timeout c <> 0
    /\ baseUrl c <> "".
Proof.
  intros Hk Hkey. apply String.eqb_neq in Hkey.
  unfold constructor. rewrite Hk. cbn. rewrite Hkey. cbn.
  eexists. split; [reflexivity|]. cbn.
  repeat split.
  - intros ->. reflexivity.
  - intros ->. reflexivity.
  - unfold or_num. destruct (cfg_timeout config) as [n|]; [|discriminate].
    cbn. destruct (Z.eqb_spec n 0); cbn; [discriminate|assumption].
  - unfold or_str. destruct (cfg_baseUrl config) as [u|]; [|discriminate].
    cbn. destruct (String.eqb_spec u ""); cbn; [discriminate|assumption].
Qed.

Lemma constructor_falsy_defaults_witness :
  exists c,
    constructor (mkConfig (Some "as-dev-key") (Some "") (Some 0)) = Return c
    /\ timeout c = 30000
    /\ baseUrl c = "https://api.aisearchapi.io".
Proof.
  destruct (constructor_falsy_defaults
              (mkConfig (Some "as-dev-key") (Some "") (Some 0))
              "as-dev-key" eq_refl)
    as (c & Hc & Ht & Hb & _); [discriminate|].
  exists c. split; [exact Hc|]. split; [apply Ht | apply Hb]; reflexivity.
Defined.

(* ===================================================================== *)
(** * Further properties: validation *)
(* ===================================================================== *)

(** X1.  The validator accepts a request exactly when the prompt is a
    non-empty string, the context is falsy or an array of messages with
    role "user" and a non-empty string content, and the response type is
    falsy, "text" or "markdown". *)
Theorem validateSearchRequest_accepts_iff (req : SearchRequest) :
  validateSearchRequest req = Return tt <-> Spec.violates req = false.
Proof.
  pose proof (validateSearchRequest_cases req) as Hc.
  destruct (Spec.violates req).
  - destruct Hc as [e He]. rewrite He. split; discriminate.
  - split; [reflexivity | intros _; exact Hc].
Qed.

(** X2.  The validator reports the first violation in the order prompt,
    context, response type: a bad prompt gives the prompt error whatever
    the other fields hold; with a good prompt, a truthy context that is
    not an array gives the context error whatever the response type is;
    with both accepted, a truthy response type other than "text" and
    "markdown" gives the response type error. *)
Theorem validateSearchRequest_order (p ctx rt : value) :
  (Spec.non_empty_string p = false ->
   validateSearchRequest (mkRequest p ctx rt)
     = Throw (ThrowError (Error "Prompt is required and must be a string")))
  /\ (Spec.non_empty_string p = true ->
      truthy ctx = true -> isArray ctx = false ->
      validateSearchRequest (mkRequest p ctx rt)
        = Throw (ThrowError
                   (Error "Context must be an array of chat messages")))
  /\ (Spec.non_empty_string p = true ->
      validate_context ctx = Return tt ->
      truthy rt = true -> Spec.good_response_type rt = false ->
      validateSearchRequest (mkRequest p ctx rt)
        = Throw (ThrowError
                   (Error ("response_type must be either " ++ dq ++ "text"
                             ++ dq ++ " or " ++ dq ++ "markdown" ++ dq)))).
Proof.
  assert (Hprompt : forall q, Spec.non_empty_string q
                    = negb (negb (truthy q)
                            || negb (typeof q =? "string")%string)).
  { intros q. destruct q as [ | | b | n | s | items | props ];
      cbn; try reflexivity.
    - now destruct b.
    - now destruct (n =? 0).
    - now destruct (s =? "")%string. }
  unfold validateSearchRequest. cbn [prompt context response_type].
  repeat split.
  - intros Hp. rewrite Hprompt in Hp. apply negb_false_iff in Hp.
    now rewrite Hp.
  - intros Hp Ht Ha. rewrite Hprompt in Hp. apply negb_true_iff in Hp.
    rewrite Hp. unfold validate_context. now rewrite Ht, Ha.
  - intros Hp Hc Ht Hg. rewrite Hprompt in Hp. apply negb_true_iff in Hp.
    rewrite Hp, Hc. cbn [bindC]. rewrite Ht.
    unfold Spec.good_response_type in Hg. unfold includes. cbn [existsb].
    rewrite orb_false_r, Hg. reflexivity.
Qed.

Lemma validateSearchRequest_order_witness :
  validateSearchRequest (mkRequest (Num 7) (Str "no array") (Str "html"))
    = Throw (ThrowError (Error "Prompt is required and must be a string"))
  /\ validateSearchRequest (mkRequest (Str "hello") (Str "no array") (Str "html"))
     = Throw (ThrowError (Error "Context must be an array of chat messages"))
  /\ validateSearchRequest (mkRequest (Str "hello") (Arr []) (Str "html"))
     = Throw (ThrowError
                (Error ("response_type must be either " ++ dq ++ "text"
                          ++ dq ++ " or " ++ dq ++ "markdown" ++ dq))).
Proof.
  split; [|split].
  - apply (proj1 (validateSearchRequest_order
                    (Num 7) (Str "no array") (Str "html"))).
    reflexivity.
  - apply (proj1 (proj2 (validateSearchRequest_order
                           (Str "hello") (Str "no array") (Str "html"))));
      reflexivity.
  - apply (proj2 (proj2 (validateSearchRequest_order
                           (Str "hello") (Arr []) (Str "html"))));
      reflexivity.
Defined.

Lemma validate_messages_skip_good (good rest : list value) :
  forallb Spec.good_message good = true ->
  validate_messages (good ++ rest) = validate_messages rest.
Proof.
  induction good as [|m good IH]; cbn; [reflexivity|].
  intros H. apply andb_true_iff in H as [Hm Hg].
  pose proof (validate_message_cases m) as Hc. rewrite Hm in Hc.
  rewrite Hc. cbn. exact (IH Hg).
Qed.

(** X3.  The loop over the context stops at the first element that is
    not acceptable, and that element alone decides the error: a [null]
    or [undefined] element gives the TypeError of reading its role, an
    element whose role is not "user" gives the role error even when its
    content is bad too, and only an element with role "user" gives the
    content error.  Elements after it are not looked at. *)
Theorem validate_messages_first_bad (good : list value) (bad : value)
    (rest : list value) :
  forallb Spec.good_message good = true ->
  Spec.good_message bad = false ->
  validate_messages (good ++ bad :: rest) = validate_message bad
  /\ (Spec.present bad = false \/ bad = Null ->
      validate_message bad = Throw (ThrowError (TypeError_read bad "role")))
  /\ (forall role,
         Get bad "role" = Return role -> strict_eq_str role "user" = false ->
         validate_message bad
           = Throw (ThrowError (Error ("Each context message must have role "
                                         ++ dq ++ "user" ++ dq))))
  /\ (Get bad "role" = Return (Str "user") ->
      validate_message bad
        = Throw (ThrowError
                   (Error "Each context message must have content as a string"))).
Proof.
  intros Hgood Hbad. split; [|split; [|split]].
  - rewrite (validate_messages_skip_good good (bad :: rest) Hgood). cbn.
    pose proof (validate_message_cases bad) as Hc. rewrite Hbad in Hc.
    destruct Hc as [e He]. now rewrite He.
  - intros [H | ->]; [destruct bad; try discriminate H|]; reflexivity.
  - intros role Hr Hne. unfold validate_message. rewrite Hr. cbn [bindC].
    rewrite Hne. now rewrite orb_true_r.
  - intros Hr. pose proof (validate_message_cases bad) as Hc.
    rewrite Hbad in Hc. destruct Hc as [e He].
    unfold validate_message in *. rewrite Hr in *. cbn in *.
    destruct (Get bad "content") as [content|t] eqn:Hcont; cbn in *.
    + destruct (negb (truthy content) || negb (typeof content =? "string")%string);
        [reflexivity | discriminate He].
    + destruct bad; cbn in Hr, Hcont; try discriminate.
      destruct (lookup props "content"); discriminate.
Qed.

Lemma validate_messages_first_bad_witness :
  validate_messages [MoreExamples.first_message;
                     MoreExamples.assistant_message; Null]
    = Throw (ThrowError (Error ("Each context message must have role "
                                  ++ dq ++ "user" ++ dq))).
Proof.
  destruct (validate_messages_first_bad
              [MoreExamples.first_message] MoreExamples.assistant_message
              [Null] eq_refl eq_refl) as (Hfirst & _ & Hrole & _).
  change (validate_messages ([MoreExamples.first_message]
                               ++ MoreExamples.assistant_message :: [Null])
          = Throw (ThrowError (Error ("Each context message must have role "
                                        ++ dq ++ "user" ++ dq)))).
  rewrite Hfirst. apply (Hrole (Str "assistant")); reflexivity.
Defined.

(** X4.  A falsy context and a falsy response type are treated as if
    they had been left out: [search] behaves on such a request exactly
    as on the request without the field. *)
Theorem search_falsy_field_is_omitted (c : AISearchAPIClient)
    (tr : Transport) (p ctx rt : value) (w : World) :
  (truthy ctx = false ->
   search c tr (mkRequest p ctx rt) w
     = search c tr (mkRequest p Undefined rt) w)
  /\ (truthy rt = false ->
      search c tr (mkRequest p ctx rt) w
        = search c tr (mkRequest p ctx Undefined) w).
Proof.
  split; intros Hf.
  - assert (Hv : validateSearchRequest (mkRequest p ctx rt)
                 = validateSearchRequest (mkRequest p Undefined rt)).
    { unfold validateSearchRequest, validate_context.
      cbn [prompt context response_type]. now rewrite Hf. }
    assert (Ho : search_options c (mkRequest p ctx rt)
                 = search_options c (mkRequest p Undefined rt)).
    { unfold search_options, search_body, spread_if, and_.
      cbn [prompt context response_type]. rewrite Hf. cbn [truthy].
      now destruct ctx. }
    unfold search. now rewrite Hv, Ho.
  - assert (Hv : validateSearchRequest (mkRequest p ctx rt)
                 = validateSearchRequest (mkRequest p ctx Undefined)).
    { unfold validateSearchRequest.
      cbn [prompt context response_type]. now rewrite Hf. }
    assert (Ho : search_options c (mkRequest p ctx rt)
                 = search_options c (mkRequest p ctx Undefined)).
    { unfold search_options, search_body.
      cbn [prompt context response_type].
      unfold spread_if at 2 4, and_. rewrite Hf. cbn [truthy].
      now destruct rt. }
    unfold search. now rewrite Hv, Ho.
Qed.

Lemma search_falsy_field_is_omitted_witness :
  search Examples.client50 (Examples.always TimerFires)
         (mkRequest (Str "hello") Null (Str "text")) Examples.world0
  = search Examples.client50 (Examples.always TimerFires)
           (mkRequest (Str "hello") Undefined (Str "text")) Examples.world0.
Proof.
  apply (proj1 (search_falsy_field_is_omitted
                  Examples.client50 (Examples.always TimerFires)
                  (Str "hello") Null (Str "text") Examples.world0)).
  reflexivity.
Defined.

(* ===================================================================== *)
(** * Further properties: one operation, one request *)
(* ===================================================================== *)

(** X5.  A search that passes validation calls the transport exactly
    once, whatever the outcome (no retry): a POST to the base URL followed
    by "/v1/search", with the bearer token and the JSON content type as
    its only headers, aborted by the timer armed for this call. *)
Theorem search_sends_one_call (c : AISearchAPIClient) (tr : Transport)
    (req : SearchRequest) (w : World) :
  validateSearchRequest req = Return tt ->
  exists call,
    calls (snd (search c tr req w)) = (calls w ++ [call])%list
    /\ url call = baseUrl c ++ "/v1/search"
    /\ method call = "POST"
    /\ headers call = [("Authorization", "Bearer " ++ apiKey c);
                       ("Content-Type", "application/json")]
    /\ signal call = next_timer w.
Proof.
  intros Hv. rewrite (search_run c tr req w Hv).
  eexists. split; [reflexivity|]. repeat split.
Qed.

Lemma search_sends_one_call_witness :
  exists call,
    calls (snd (search Examples.client50
                  (Examples.always
                     (Rejects (ThrowError Examples.fetch_failed)))
                  Examples.hello Examples.world0))
      = [call]
    /\ url call = "https://api.aisearchapi.io/v1/search"
    /\ method call = "POST".
Proof.
  destruct (search_sends_one_call Examples.client50
              (Examples.always (Rejects (ThrowError Examples.fetch_failed)))
              Examples.hello Examples.world0 eq_refl)
    as (call & Hcalls & Hurl & Hmethod & _).
  exists call. repeat split; assumption.
Defined.

(** X6.  [balance] calls the transport exactly once, whatever the
    outcome: a GET to the base URL followed by "/v1/balance", without a
    body, with the bearer token as its only header. *)
Theorem balance_sends_one_call (c : AISearchAPIClient) (tr : Transport)
    (w : World) :
  exists call,
    calls (snd (balance c tr w)) = (calls w ++ [call])%list
    /\ url call = baseUrl c ++ "/v1/balance"
    /\ method call = "GET"
    /\ headers call = [("Authorization", "Bearer " ++ apiKey c)]
    /\ body call = None
    /\ signal call = next_timer w.
Proof.
  rewrite balance_run. eexists. split; [reflexivity|]. repeat split.
Qed.

Lemma finish_cases (prefix : string) (res : Completion Response) :
  (exists v, Run.finish prefix res = Return v)
  \/ (exists e, Run.finish prefix res = Throw (ThrowAPI e)).
Proof.
  unfold Run.finish.
  destruct (bindC res Run.respond) as [v|t]; [left; now exists v|].
  right. unfold Run.rewrapC.
  destruct t as [e|e|v]; cbn; eexists; reflexivity.
Qed.

(** X7.  Once validation has passed, an [AISearchAPIError] is the only
    thing [search] throws, and the only thing [balance] ever throws,
    whatever the transport does (a response of any status, a body that
    does not parse, a timeout, a rejection with an Error or with any other
    value). *)
Theorem only_api_errors (c : AISearchAPIClient) (tr : Transport) (w : World) :
  (forall req,
      validateSearchRequest req = Return tt ->
      (exists v, fst (search c tr req w) = Return v)
      \/ (exists e, fst (search c tr req w) = Throw (ThrowAPI e)))
  /\ ((exists v, fst (balance c tr w) = Return v)
      \/ (exists e, fst (balance c tr w) = Throw (ThrowAPI e))).
Proof.
  split.
  - intros req Hv. rewrite (search_run c tr req w Hv). apply finish_cases.
  - rewrite balance_run. apply finish_cases.
Qed.

Lemma wf_after_request (w : World) (call : FetchCall) :
  Run.wf_world w ->
  Run.wf_world (Run.after_request w call)
  /\ timers (Run.after_request w call) = timers w.
Proof.
  intros Hwf. unfold Run.wf_world, Run.after_request in *. cbn.
  rewrite (remove_timer_fresh _ _ Hwf). split; [|reflexivity].
  eapply Forall_impl; [|exact Hwf]. cbn. intros; lia.
Qed.

(** X8.  [search] and [balance] keep the timers in order: starting from
    a world whose timer ids are all below the next one, each leaves such
    a world, with the same timers armed as before, on every outcome and
    also when validation rejects the request; so operations can follow
    one another without a leaked or reused timer. *)
Theorem operations_keep_timers (c : AISearchAPIClient) (tr : Transport)
    (w : World) :
  Run.wf_world w ->
  (forall req,
      Run.wf_world (snd (search c tr req w))
      /\ timers (snd (search c tr req w)) = timers w)
  /\ Run.wf_world (snd (balance c tr w))
  /\ timers (snd (balance c tr w)) = timers w.
Proof.
  intros Hwf. split.
  - intros req. destruct (validateSearchRequest req) as [[]|t] eqn:Hv.
    + rewrite (search_run c tr req w Hv). cbn [snd].
      now apply wf_after_request.
    + rewrite (search_rejected c tr req w t Hv). now split.
  - rewrite balance_run. cbn [snd]. now apply wf_after_request.
Qed.

Lemma operations_keep_timers_witness :
  timers (snd (balance Examples.client50 (Examples.always TimerFires)
                 Examples.world0))
  = [].
Proof.
  assert (Hwf : Run.wf_world Examples.world0) by constructor.
  destruct (operations_keep_timers Examples.client50
              (Examples.always TimerFires) Examples.world0 Hwf)
    as (_ & _ & Ht).
  exact Ht.
Defined.

(** X9.  Operations compose: a valid search followed by a balance check
    leaves exactly the two calls in the order they were made, each under
    its own timer, and neither outcome changes that. *)
Theorem search_then_balance (c : AISearchAPIClient) (tr : Transport)
    (req : SearchRequest) (w : World) :
  validateSearchRequest req = Return tt ->
  calls (snd (balance c tr (snd (search c tr req w))))
  = (calls w ++ [Wire.search_call c req (next_timer w);
                 Wire.balance_call c (S (next_timer w))])%list.
Proof.
  intros Hv. rewrite balance_run, (search_run c tr req w Hv).
  cbn. now rewrite <- app_assoc.
Qed.

Lemma search_then_balance_witness :
  length (calls (snd (balance Examples.client50 (Examples.always TimerFires)
                        (snd (search Examples.client50
                                (Examples.always TimerFires)
                                Examples.hello Examples.world0)))))
  = 2%nat.
Proof.
  rewrite (search_then_balance Examples.client50 (Examples.always TimerFires)
             Examples.hello Examples.world0 eq_refl).
  reflexivity.
Defined.

(** X10.  When the transport answers [balance] with a 2xx status and a
    body that parses, [balance] returns that very body. *)
Theorem balance_returns_body (c : AISearchAPIClient) (tr : Transport)
    (w : World) (r : Response) (data : value) :
  tr (Wire.balance_call c (next_timer w)) = Responds r ->
  ok r = true ->
  json r = inr data ->
  fst (balance c tr w) = Return data.
Proof.
  intros Htr Hok Hj. rewrite balance_run.
  unfold Wire.balance_call in Htr. rewrite Htr.
  cbn. unfold Run.finish, Run.respond. cbn. now rewrite Hok, Hj.
Qed.

Lemma balance_returns_body_witness :
  fst (balance Examples.client50
         (Examples.always (Responds (mkResponse 200 (inr MoreExamples.credits))))
         Examples.world0)
  = Return (Obj [("available_credits", Num 42)]).
Proof.
  apply (balance_returns_body Examples.client50
           (Examples.always
              (Responds (mkResponse 200 (inr MoreExamples.credits))))
           Examples.world0
           (mkResponse 200 (inr MoreExamples.credits)) MoreExamples.credits);
    reflexivity.
Defined.

(** X11.  The error that the normaliser builds for a non-2xx response
    reaches the caller of [search] and of [balance] as it is: the
    operation's "request failed" prefix is not added to it. *)
Theorem http_error_not_rewrapped (c : AISearchAPIClient) (tr : Transport)
    (req : SearchRequest) (w : World) (r : Response)
    (e : AISearchAPIError) :
  validateSearchRequest req = Return tt ->
  (forall call, tr call = Responds r) ->
  ok r = false ->
  handleErrorResponse r = Throw (ThrowAPI e) ->
  fst (search c tr req w) = Throw (ThrowAPI e)
  /\ fst (balance c tr w) = Throw (ThrowAPI e).
Proof.
  intros Hv Htr Hok He.
  rewrite (search_run c tr req w Hv), balance_run, !Htr.
  cbn. unfold Run.finish, Run.respond. cbn. rewrite Hok, He. now split.
Qed.

Lemma http_error_not_rewrapped_witness :
  fst (balance Examples.client50
         (Examples.always
            (Responds (mkResponse 401 (inr Examples.teapot_wire))))
         Examples.world0)
  = Throw (ThrowAPI (mkAPIError "Unauthorized: Please check your API key"
                                (Some 401) Examples.teapot_wire
                                (Str "Unauthorized: Please check your API key"))).
Proof.
  apply (http_error_not_rewrapped Examples.client50
           (Examples.always
              (Responds (mkResponse 401 (inr Examples.teapot_wire))))
           Examples.hello Examples.world0
           (mkResponse 401 (inr Examples.teapot_wire))).
  - reflexivity.
  - intros call. reflexivity.
  - reflexivity.
  - reflexivity.
Defined.

(** X12.  A 2xx response whose body does not parse is a failure as well:
    [search] and [balance] throw an AISearchAPIError whose message is the
    operation's prefix followed by the parser's message, and which has no
    statusCode although a status was received. *)
Theorem unparsable_success_body (c : AISearchAPIClient) (tr : Transport)
    (req : SearchRequest) (w : World) (r : Response) (err : ErrorObj) :
  validateSearchRequest req = Return tt ->
  (forall call, tr call = Responds r) ->
  ok r = true ->
  json r = inl err ->
  fst (search c tr req w)
    = Throw (ThrowAPI (mkAPIError ("Search request failed: " ++ message err)
                                  None Undefined
                                  (Str ("Search request failed: "
                                          ++ message err))))
  /\ fst (balance c tr w)
     = Throw (ThrowAPI (mkAPIError ("Balance request failed: " ++ message err)
                                   None Undefined
                                   (Str ("Balance request failed: "
                                           ++ message err)))).
Proof.
  intros Hv Htr Hok Hj.
  rewrite (search_run c tr req w Hv), balance_run, !Htr.
  cbn. unfold Run.finish, Run.respond. cbn. rewrite Hok, Hj. now split.
Qed.

Lemma unparsable_success_body_witness :
  fst (search Examples.client50
         (Examples.always
            (Responds (mkResponse 200 (inl MoreExamples.syntax_error))))
         Examples.hello Examples.world0)
  = Throw (ThrowAPI
             (mkAPIError
                "Search request failed: Unexpected end of JSON input"
                None Undefined
                (Str "Search request failed: Unexpected end of JSON input"))).
Proof.
  apply (unparsable_success_body Examples.client50
           (Examples.always
              (Responds (mkResponse 200 (inl MoreExamples.syntax_error))))
           Examples.hello Examples.world0
           (mkResponse 200 (inl MoreExamples.syntax_error))
           MoreExamples.syntax_error).
  - reflexivity.
  - intros call. reflexivity.
  - reflexivity.
  - reflexivity.
Defined.

(* ===================================================================== *)
(** * Further properties: errors and their fields *)
(* ===================================================================== *)

Lemma parse_error_body_snd (r : Response) :
  snd (parse_error_body r) = Wire.parsed r.
Proof.
  unfold parse_error_body, Wire.parsed.
  destruct (json r) as [err|data]; [reflexivity|].
  now destruct (pick_message data) as [[m|]|t].
Qed.

(** X13.  For the statuses 401, 429, 433, 500 and 503 the normaliser
    throws the fixed message whatever the body is: parsed or not, of any
    shape.  The error carries the status and the parsed body (nothing
    when the body did not parse). *)
Theorem override_ignores_body (r : Response) (text : string) :
  Spec.override Spec.overrides (status r) = Some text ->
  handleErrorResponse r
  = Throw (ThrowAPI (mkAPIError text (Some (status r)) (Wire.parsed r)
                                (Str text))).
Proof.
  intros Ho. unfold handleErrorResponse, final_message.
  rewrite status_override_table, Ho, parse_error_body_snd.
  reflexivity.
Qed.

Lemma override_ignores_body_witness :
  handleErrorResponse (mkResponse 503 (inr Examples.unprintable))
  = Throw (ThrowAPI
             (mkAPIError "Service unavailable: The API is temporarily down"
                         (Some 503) Examples.unprintable
                         (Str "Service unavailable: The API is temporarily down"))).
Proof.
  apply (override_ignores_body (mkResponse 503 (inr Examples.unprintable))).
  reflexivity.
Defined.

(** X14.  When the body of a non-2xx response does not parse (it is
    empty or malformed) and the status has no fixed message, the error
    message is "HTTP" followed by the status, the statusCode is the
    status and there is no response attached. *)
Theorem unparsable_error_body (r : Response) (err : ErrorObj) :
  json r = inl err ->
  Spec.override Spec.overrides (status r) = None ->
  handleErrorResponse r
  = Throw (ThrowAPI (mkAPIError ("HTTP " ++ Number_toString (status r))
                                (Some (status r)) Undefined
                                (Str ("HTTP " ++ Number_toString (status r))))).
Proof.
  intros Hj Ho. unfold handleErrorResponse, final_message, parse_error_body.
  rewrite status_override_table, Ho, Hj. reflexivity.
Qed.

Lemma unparsable_error_body_witness :
  handleErrorResponse (mkResponse 404 (inl MoreExamples.syntax_error))
  = Throw (ThrowAPI (mkAPIError "HTTP 404" (Some 404) Undefined
                                (Str "HTTP 404"))).
Proof.
  apply (unparsable_error_body (mkResponse 404 (inl MoreExamples.syntax_error))
                               MoreExamples.syntax_error);
    reflexivity.
Defined.

(** X15.  A non-empty string under error.descripiton decides the message
    whatever else the body holds, and a non-empty string under error
    decides it whatever the message field holds, of any type. *)
Theorem description_wins (r : Response) (props : list (string * value))
    (s : string) :
  json r = inr (Obj props) ->
  Spec.override Spec.overrides (status r) = None ->
  s <> "" ->
  (forall eprops,
      lookup props "error" = Some (Obj eprops) ->
      lookup eprops "descripiton" = Some (Str s) ->
      handleErrorResponse r
      = Throw (ThrowAPI (mkAPIError s (Some (status r)) (Obj props) (Str s))))
  /\ (lookup props "error" = Some (Str s) ->
      handleErrorResponse r
      = Throw (ThrowAPI (mkAPIError s (Some (status r)) (Obj props) (Str s)))).
Proof.
  intros Hj Ho Hs. apply String.eqb_neq in Hs.
  unfold handleErrorResponse, final_message, parse_error_body, pick_message.
  rewrite status_override_table, Ho, Hj.
  split.
  - intros eprops He Hd. cbn. rewrite He. cbn. rewrite Hd. cbn.
    rewrite Hs. reflexivity.
  - intros He. cbn. rewrite He. cbn. rewrite Hs. cbn. rewrite ?Hs.
    reflexivity.
Qed.

Lemma description_wins_witness :
  handleErrorResponse
    (mkResponse 418 (inr (Obj [("message", Num 7);
                               ("error", Obj [("descripiton", Str "teapot")])])))
  = Throw (ThrowAPI
             (mkAPIError "teapot" (Some 418)
                (Obj [("message", Num 7);
                      ("error", Obj [("descripiton", Str "teapot")])])
                (Str "teapot"))).
Proof.
  apply (proj1 (description_wins
                  (mkResponse 418
                     (inr (Obj [("message", Num 7);
                                ("error", Obj [("descripiton", Str "teapot")])])))
                  [("message", Num 7);
                   ("error", Obj [("descripiton", Str "teapot")])]
                  "teapot" eq_refl eq_refl ltac:(discriminate))
               [("descripiton", Str "teapot")]);
    reflexivity.
Defined.

(** X16.  A statusCode on an error of [search] that followed a response
    is always the status of that response, and the response was not a
    2xx one; the error then carries the parsed body.  An error after a
    2xx response, a timeout or a rejection by an Error has no
    statusCode. *)
Theorem statusCode_provenance (c : AISearchAPIClient) (tr : Transport)
    (req : SearchRequest) (w : World) (e : AISearchAPIError) :
  validateSearchRequest req = Return tt ->
  fst (search c tr req w) = Throw (ThrowAPI e) ->
  (forall r,
      tr (Wire.search_call c req (next_timer w)) = Responds r ->
      forall st,
        statusCode e = Some st ->
        st = status r /\ ok r = false /\ response e = Wire.parsed r)
  /\ (tr (Wire.search_call c req (next_timer w)) = TimerFires ->
      statusCode e = None)
  /\ (forall failure,
         tr (Wire.search_call c req (next_timer w))
           = Rejects (ThrowError failure) ->
         statusCode e = None).
Proof.
  intros Hv. rewrite (search_run c tr req w Hv). cbn [fst].
  unfold Wire.search_call. intros He. split; [|split].
  - intros r Hr st Hst. rewrite Hr in He. cbn in He.
    unfold Run.finish, Run.respond in He. cbn in He.
    destruct (ok r) eqn:Hok; cbn in He.
    + destruct (json r) as [err|data]; cbn in He; [|discriminate He].
      injection He as <-. discriminate Hst.
    + destruct (handleErrorResponse_cases r) as [(e' & H1 & _ & H3 & H4) | [H1 _]];
        rewrite H1 in He; cbn in He.
      * injection He as <-. rewrite H3 in Hst. injection Hst as <-.
        now rewrite H4, parse_error_body_snd.
      * injection He as <-. discriminate Hst.
  - intros Ht. rewrite Ht in He. cbn in He. now injection He as <-.
  - intros failure Hf. rewrite Hf in He. cbn in He.
    destruct (name failure =? "AbortError")%string; cbn in He;
      now injection He as <-.
Qed.

Lemma statusCode_provenance_witness :
  418 = status (mkResponse 418 (inr Examples.teapot_wire))
  /\ ok (mkResponse 418 (inr Examples.teapot_wire)) = false
  /\ response (mkAPIError "teapot" (Some 418) Examples.teapot_wire
                          (Str "teapot"))
     = Wire.parsed (mkResponse 418 (inr Examples.teapot_wire)).
Proof.
  exact (proj1 (statusCode_provenance Examples.client50
                  (Examples.always
                     (Responds (mkResponse 418 (inr Examples.teapot_wire))))
                  Examples.hello Examples.world0
                  (mkAPIError "teapot" (Some 418) Examples.teapot_wire
                              (Str "teapot"))
                  eq_refl eq_refl)
               (mkResponse 418 (inr Examples.teapot_wire)) eq_refl
               418 eq_refl).
Defined.

(** X17.  A rejection of the transport whose name reads "AbortError" is
    reported as a timeout even when no timer fired: [search] throws the
    timeout error of the client. *)
Theorem abort_named_rejection_is_timeout (c : AISearchAPIClient)
    (tr : Transport) (req : SearchRequest) (w : World) (t : Thrown) :
  validateSearchRequest req = Return tt ->
  tr (Wire.search_call c req (next_timer w)) = Rejects t ->
  error_name t = Return (Str "AbortError") ->
  fst (search c tr req w) = Throw (ThrowAPI (Run.timeout_error c)).
Proof.
  intros Hv Htr Hn. rewrite (search_run c tr req w Hv).
  unfold Wire.search_call in Htr. rewrite Htr. cbn. now rewrite Hn.
Qed.

Lemma abort_named_rejection_is_timeout_witness :
  fst (search Examples.client50
         (Examples.always
            (Rejects (ThrowValue (Obj [("name", Str "AbortError")]))))
         Examples.hello Examples.world0)
  = Throw (ThrowAPI (Run.timeout_error Examples.client50)).
Proof.
  apply (abort_named_rejection_is_timeout Examples.client50
           (Examples.always
              (Rejects (ThrowValue (Obj [("name", Str "AbortError")]))))
           Examples.hello Examples.world0
           (ThrowValue (Obj [("name", Str "AbortError")])));
    reflexivity.
Defined.

(** X18.  A rejection with a value that is not an Error (and is neither
    [null] nor [undefined], nor named "AbortError") loses its content:
    the message is the operation's prefix followed by "Unknown error",
    with no statusCode. *)
Theorem non_error_rejection (c : AISearchAPIClient) (tr : Transport)
    (req : SearchRequest) (w : World) (v n : value) :
  validateSearchRequest req = Return tt ->
  (forall call, tr call = Rejects (ThrowValue v)) ->
  Get v "name" = Return n ->
  strict_eq_str n "AbortError" = false ->
  fst (search c tr req w)
    = Throw (ThrowAPI (mkAPIError "Search request failed: Unknown error"
                                  None Undefined
                                  (Str "Search request failed: Unknown error")))
  /\ fst (balance c tr w)
     = Throw (ThrowAPI (mkAPIError "Balance request failed: Unknown error"
                                   None Undefined
                                   (Str "Balance request failed: Unknown error"))).
Proof.
  intros Hv Htr Hg Hn.
  rewrite (search_run c tr req w Hv), balance_run, !Htr.
  cbn. rewrite Hg, Hn. now split.
Qed.

Lemma non_error_rejection_witness :
  fst (search Examples.client50
         (Examples.always (Rejects (ThrowValue (Str "offline"))))
         Examples.hello Examples.world0)
  = Throw (ThrowAPI (mkAPIError "Search request failed: Unknown error"
                                None Undefined
                                (Str "Search request failed: Unknown error"))).
Proof.
  apply (non_error_rejection Examples.client50
           (Examples.always (Rejects (ThrowValue (Str "offline"))))
           Examples.hello Examples.world0 (Str "offline") Undefined).
  - reflexivity.
  - intros call. reflexivity.
  - reflexivity.
  - reflexivity.
Defined.

(* ===================================================================== *)
(** * Further properties: construction and the body on the wire *)
(* ===================================================================== *)

(** X19.  The constructor stores a non-empty key, a non-empty base URL
    and a non-zero timeout as they are given (the URL is not normalised,
    a negative timeout is accepted), and defaulting is idempotent: a
    client the constructor returned is returned again for the
    configuration that spells out its three fields. *)
Theorem constructor_round_trip :
  (forall key base t,
      key <> "" -> base <> "" -> t <> 0 ->
      constructor (mkConfig (Some key) (Some base) (Some t))
        = Return (mkClient key base t))
  /\ (forall config c,
         constructor config = Return c ->
         constructor (Wire.config_of c) = Return c).
Proof.
  assert (Hstore : forall key base t,
             key <> "" -> base <> "" -> t <> 0 ->
             constructor (mkConfig (Some key) (Some base) (Some t))
               = Return (mkClient key base t)).
  { intros key base t Hk Hb Ht.
    apply String.eqb_neq in Hk. apply String.eqb_neq in Hb.
    apply Z.eqb_neq in Ht.
    unfold constructor, or_str, or_num. cbn. now rewrite Hk, Hb, Ht. }
  split; [exact Hstore|].
  intros config c Hc. unfold constructor in Hc.
  destruct (cfg_apiKey config) as [key|]; cbn in Hc; [|discriminate Hc].
  destruct (String.eqb_spec key ""); cbn in Hc; [discriminate Hc|].
  injection Hc as <-. unfold Wire.config_of. cbn [apiKey baseUrl timeout].
  apply Hstore; [assumption| |].
  - unfold or_str. destruct (cfg_baseUrl config) as [u|]; [|discriminate].
    cbn. destruct (String.eqb_spec u ""); cbn; [discriminate|assumption].
  - unfold or_num. destruct (cfg_timeout config) as [t|]; [|discriminate].
    cbn. destruct (Z.eqb_spec t 0); cbn; [discriminate|assumption].
Qed.

Lemma constructor_round_trip_witness :
  constructor (mkConfig (Some "as-dev-key") (Some "http://localhost:8080/")
                        (Some (-5)))
    = Return (mkClient "as-dev-key" "http://localhost:8080/" (-5))
  /\ constructor (Wire.config_of
                    (mkClient "as-dev-key" "https://api.aisearchapi.io" 30000))
     = Return (mkClient "as-dev-key" "https://api.aisearchapi.io" 30000).
Proof.
  split.
  - apply (proj1 constructor_round_trip); discriminate.
  - apply (proj2 constructor_round_trip
             (mkConfig (Some "as-dev-key") (Some "") (Some 0))).
    reflexivity.
Defined.

Section WireBody.

Lemma to_json_obj (props : list (string * value)) :
  to_json (Obj props) = Obj (Wire.json_props props).
Proof.
  cbn. f_equal.
Qed.

Lemma to_json_arr (items : list value) :
  to_json (Arr items) = Arr (map Wire.json_item items).
Proof. reflexivity. Qed.

(** A string under a key is written under that key. *)
Lemma lookup_json_props_str (props : list (string * value)) (k s : string) :
  lookup props k = Some (Str s) ->
  lookup (Wire.json_props props) k = Some (Str s).
Proof.
  induction props as [|[k' x] props IH]; cbn; [discriminate|].
  destruct (k' =? k)%string eqn:Hk.
  - intros [= ->]. cbn. now rewrite Hk.
  - intros H. destruct x; cbn; rewrite ?Hk; auto.
Qed.

Lemma good_message_fields (m : value) :
  Spec.good_message m = true ->
  exists props content,
    m = Obj props
    /\ lookup props "role" = Some (Str "user")
    /\ lookup props "content" = Some (Str content).
Proof.
  unfold Spec.good_message, Spec.field.
  destruct m as [ | | b | n | s | items | props ]; try discriminate.
  destruct (lookup props "role") as [role|] eqn:Er; [|discriminate].
  destruct (lookup props "content") as [content|] eqn:Ec; [|discriminate].
  intros H. apply andb_true_iff in H as [Hr Hc].
  destruct role; try discriminate Hr. cbn in Hr.
  apply String.eqb_eq in Hr. subst.
  destruct content; try discriminate Hc.
  eexists. eexists. split; [reflexivity|]. split; [exact Er | exact Ec].
Qed.

(** The shape of an accepted request. *)
Lemma accepted_shape (req : SearchRequest) :
  validateSearchRequest req = Return tt ->
  (exists s, prompt req = Str s)
  /\ (truthy (context req) = true ->
      exists items,
        context req = Arr items /\ forallb Spec.good_message items = true)
  /\ (truthy (response_type req) = true ->
      response_type req = Str "text" \/ response_type req = Str "markdown").
Proof.
  intros Hv. pose proof (validateSearchRequest_cases req) as Hc.
  destruct (Spec.violates req) eqn:Hviol;
    [destruct Hc as [e He]; rewrite He in Hv; discriminate Hv|].
  unfold Spec.violates in Hviol.
  apply orb_false_iff in Hviol as [Hviol Hrt].
  apply orb_false_iff in Hviol as [Hp Hctx].
  split; [|split].
  - destruct (prompt req); try discriminate Hp. eauto.
  - intros Ht. rewrite Ht in Hctx. cbn in Hctx.
    apply negb_false_iff in Hctx. unfold Spec.good_context in Hctx.
    destruct (context req); try discriminate Hctx. eauto.
  - intros Ht. rewrite Ht in Hrt. cbn in Hrt.
    apply negb_false_iff in Hrt. unfold Spec.good_response_type in Hrt.
    destruct (response_type req); try discriminate Hrt.
    cbn in Hrt. apply orb_true_iff in Hrt as [H|H];
      apply String.eqb_eq in H; subst; auto.
Qed.

End WireBody.

(** X20.  The body of a search that passes validation is the JSON object
    with the key [prompt] holding the prompt as given (not trimmed), then
    the key [context] when the context is truthy, then the key
    [response_type] holding the response type as given when it is truthy,
    and no other key. *)
Theorem search_body_exact (c : AISearchAPIClient) (tr : Transport)
    (req : SearchRequest) (w : World) :
  validateSearchRequest req = Return tt ->
  exists call,
    calls (snd (search c tr req w)) = (calls w ++ [call])%list
    /\ body call
       = Some (Obj ([("prompt", prompt req)]
                      ++ Wire.optional_key "context" (context req)
                           (to_json (context req))
                      ++ Wire.optional_key "response_type" (response_type req)
                           (response_type req))%list).
Proof.
  intros Hv. rewrite (search_run c tr req w Hv).
  eexists. split; [reflexivity|].
  destruct (accepted_shape req Hv) as ((s & Hp) & Hctx & Hrt).
  unfold call_of, search_options, JSON_stringify, search_body, spread_if,
    and_, Wire.optional_key.
  cbn [body opt_body]. rewrite Hp.
  destruct (truthy (context req)) eqn:Tc;
    destruct (truthy (response_type req)) eqn:Tr.
  - destruct (Hctx eq_refl) as (items & -> & _).
    destruct (Hrt eq_refl) as [-> | ->]; reflexivity.
  - destruct (Hctx eq_refl) as (items & -> & _).
    destruct (response_type req); try discriminate Tr; reflexivity.
  - destruct (Hrt eq_refl) as [-> | ->];
      destruct (context req); try discriminate Tc; reflexivity.
  - destruct (context req); try discriminate Tc;
      destruct (response_type req); try discriminate Tr; reflexivity.
Qed.

Lemma search_body_exact_witness :
  exists call,
    calls (snd (search Examples.client50 (Examples.always TimerFires)
                  (mkRequest (Str "  hello ") Null (Str "markdown"))
                  Examples.world0))
      = [call]
    /\ body call = Some (Obj [("prompt", Str "  hello ");
                              ("response_type", Str "markdown")]).
Proof.
  destruct (search_body_exact Examples.client50 (Examples.always TimerFires)
              (mkRequest (Str "  hello ") Null (Str "markdown"))
              Examples.world0 eq_refl) as (call & Hcalls & Hbody).
  exists call. split; [exact Hcalls | exact Hbody].
Defined.

(** X21.  The context reaches the wire in the order given: the array
    written has as many elements as the context, and its i-th element has
    the role "user" and the content of the i-th message. *)
Theorem context_order_on_wire (req : SearchRequest) (items : list value) :
  validateSearchRequest req = Return tt ->
  context req = Arr items ->
  exists props wire,
    JSON_stringify (search_body req) = Some (Obj props)
    /\ lookup props "context" = Some (Arr wire)
    /\ length wire = length items
    /\ forall i m,
         nth_error items i = Some m ->
         exists m',
           nth_error wire i = Some m'
           /\ Spec.field m' "role" = Some (Str "user")
           /\ Spec.field m' "content" = Spec.field m "content".
Proof.
  intros Hv Hctx.
  destruct (accepted_shape req Hv) as ((s & Hp) & Hc & _).
  rewrite Hctx in Hc. destruct (Hc eq_refl) as (items' & [= <-] & Hgood).
  exists (Wire.json_props
            ([("prompt", prompt req)]
               ++ spread_if "context" (context req)
               ++ spread_if "response_type" (response_type req))%list),
         (map Wire.json_item items).
  split; [|split; [|split]].
  - unfold JSON_stringify. cbn [search_body]. unfold search_body.
    now rewrite to_json_obj.
  - rewrite Hp, Hctx. reflexivity.
  - apply length_map.
  - intros i m Hi. exists (Wire.json_item m).
    split; [now apply map_nth_error|].
    rewrite forallb_forall in Hgood.
    destruct (good_message_fields m (Hgood m (nth_error_In _ _ Hi)))
      as (props & content & -> & Hrole & Hcontent).
    unfold Wire.json_item. rewrite to_json_obj. cbn [Spec.field].
    rewrite (lookup_json_props_str props "role" "user" Hrole),
      (lookup_json_props_str props "content" content Hcontent).
    now rewrite Hcontent.
Qed.

Lemma context_order_on_wire_witness :
  exists props wire,
    JSON_stringify (search_body MoreExamples.with_context) = Some (Obj props)
    /\ lookup props "context" = Some (Arr wire)
    /\ length wire = 2%nat.
Proof.
  destruct (context_order_on_wire MoreExamples.with_context
              [MoreExamples.first_message; MoreExamples.second_message]
              eq_refl eq_refl) as (props & wire & Hb & Hl & Hn & _).
  exists props, wire. repeat split; assumption.
Defined.

(* ===================================================================== *)
(** * Further properties: what the normaliser can throw *)
(* ===================================================================== *)

(** X22.  The normaliser never returns normally and throws one of two
    things: an AISearchAPIError that carries the status, the parsed body
    (nothing when the body did not parse) and, under error.descripiton,
    the chosen value of which the message is the string form; or, only
    for a status without a fixed message and a chosen value that has no
    string form, the TypeError of the error constructor. *)
Theorem handleErrorResponse_never_returns (r : Response) :
  handleErrorResponse r <> Return tt
  /\ ((exists e,
          handleErrorResponse r = Throw (ThrowAPI e)
          /\ statusCode e = Some (status r)
          /\ response e = Wire.parsed r
          /\ error_descripiton e = final_message r
          /\ ToString (error_descripiton e) = Some (err_message e))
      \/ (handleErrorResponse r = Throw (ThrowError TypeError_primitive)
          /\ Spec.override Spec.overrides (status r) = None
          /\ ToString (fst (parse_error_body r)) = None)).
Proof.
  destruct (handleErrorResponse_cases r)
    as [(e & He & Hs & Hst & Hresp) | [He Hs]].
  - split; [rewrite He; discriminate|]. left. exists e.
    assert (Hd : error_descripiton e = final_message r).
    { unfold handleErrorResponse, new_AISearchAPIError in He.
      destruct (final_message r) eqn:Hm;
        try (cbn in He; injection He as <-; reflexivity);
        destruct (ToString _); cbn in He; try discriminate He;
        injection He as <-; reflexivity. }
    repeat split; try assumption.
    + now rewrite Hresp, parse_error_body_snd.
    + now rewrite Hd.
  - split; [rewrite He; discriminate|]. right.
    split; [exact He|]. unfold final_message in Hs.
    rewrite status_override_table in Hs.
    destruct (Spec.override Spec.overrides (status r));
      [discriminate Hs | now split].
Qed.

Lemma validateSearchRequest_accepts_iff_witness :
  validateSearchRequest MoreExamples.with_context = Return tt.
Proof.
  apply (proj2 (validateSearchRequest_accepts_iff MoreExamples.with_context)).
  reflexivity.
Defined.

Lemma only_api_errors_witness :
  (exists v,
      fst (search Examples.client50
             (Examples.always (Rejects (ThrowValue Null)))
             Examples.hello Examples.world0) = Return v)
  \/ (exists e,
         fst (search Examples.client50
                (Examples.always (Rejects (ThrowValue Null)))
                Examples.hello Examples.world0) = Throw (ThrowAPI e)).
Proof.
  apply (proj1 (only_api_errors Examples.client50
                  (Examples.always (Rejects (ThrowValue Null)))
                  Examples.world0) Examples.hello).
  reflexivity.
Defined.
